(** * The packed-function calling convention of the Cython FFI layer

    A shallow embedding of [packed_func.pxi]: the argument encoder
    [make_arg], the result decoder [make_ret], the call invokers
    [FuncCall3], [FuncCall] and [ConstructorCall], the callback trampoline
    [tvm_callback] with its finalizer, and the [PackedFuncBase] wrapper.

    Python values are an inductive type with one constructor per class the
    encoder distinguishes; [isinstance] carries the subclass relations that
    make the order of the encoder's tests matter.  Effects (temporary
    buffers, reference counts, calls of the C API) are threaded through a
    state-and-exception monad over a [World]; every C API call is logged in
    the world's trace, and so are the storage a vector takes and the
    release of an invoker's temporaries when the invoker is left. *)

From Stdlib Require Import ZArith List Lia Bool.
From Stdlib.Strings Require Import Byte.
From stdpp Require Import base tactics option list gmap strings pretty.

Local Open Scope Z_scope.

(** ** Type codes *)

(** Modelled from the spec: the enumerators of [TVMArgTypeCode] are declared
    outside the translated file.  The spec gives a closed set of codes and
    an extension range that starts at a reserved threshold; the numbers
    themselves are left open, so they are the fields of a class. *)
Class TypeCodes := {
  kInt : Z;
  kFloat : Z;
  kTVMOpaqueHandle : Z;
  kTVMNullptr : Z;
  kDLDevice : Z;
  kTVMDLTensorHandle : Z;
  kTVMObjectHandle : Z;
  kTVMModuleHandle : Z;
  kTVMPackedFuncHandle : Z;
  kTVMStr : Z;
  kTVMBytes : Z;
  kTVMNDArrayHandle : Z;
  kTVMObjectRefArg : Z;
  kTVMArgBool : Z;
  kTVMExtBegin : Z
}.

(** The reserved (non-extension) codes, in the order of the class. *)
Definition reserved_codes `{TypeCodes} : list Z :=
  [kInt; kFloat; kTVMOpaqueHandle; kTVMNullptr; kDLDevice; kTVMDLTensorHandle;
   kTVMObjectHandle; kTVMModuleHandle; kTVMPackedFuncHandle; kTVMStr;
   kTVMBytes; kTVMNDArrayHandle; kTVMObjectRefArg; kTVMArgBool].

(** What the spec says of the codes: they are pairwise different, and the
    extension range lies above every reserved code. *)
Class TypeCodesWF (tc : TypeCodes) : Prop := {
  codes_distinct : NoDup reserved_codes;
  codes_below_ext : Forall (fun c => c < kTVMExtBegin) reserved_codes
}.

(** The numbering of the C runtime header, used to run the model. *)
Definition c_runtime_codes : TypeCodes := {|
  kInt := 0; kFloat := 2; kTVMOpaqueHandle := 3; kTVMNullptr := 4;
  kDLDevice := 6; kTVMDLTensorHandle := 7; kTVMObjectHandle := 8;
  kTVMModuleHandle := 9; kTVMPackedFuncHandle := 10; kTVMStr := 11;
  kTVMBytes := 12; kTVMNDArrayHandle := 13; kTVMObjectRefArg := 14;
  kTVMArgBool := 15; kTVMExtBegin := 16
|}.

(** ** Machine integers *)

Definition INT64_MIN : Z := - 2 ^ 63.
Definition INT64_MAX : Z := 2 ^ 63 - 1.
Definition UINT64_MAX : Z := 2 ^ 64 - 1.
Definition INT_MIN : Z := - 2 ^ 31.
Definition INT_MAX : Z := 2 ^ 31 - 1.

Definition in_int64 (z : Z) : bool := (INT64_MIN <=? z) && (z <=? INT64_MAX).
Definition in_uint64 (z : Z) : bool := (0 <=? z) && (z <=? UINT64_MAX).
Definition in_int (z : Z) : bool := (INT_MIN <=? z) && (z <=? INT_MAX).

(** ** Python exceptions *)

Inductive exc_class :=
| TypeError | ValueError | OverflowError | AssertionError | RuntimeError
| TVMError                       (* raised by CHECK_CALL *)
| UserException (name : string)  (* any other subclass of Exception *)
| KeyboardInterrupt | SystemExit.  (* BaseException, not Exception *)

Record pyexc := mk_exc { exc_type : exc_class; exc_msg : string }.

(** [isinstance(err, Exception)], the test of an [except Exception] clause. *)
Definition is_Exception (e : pyexc) : bool :=
  match exc_type e with
  | KeyboardInterrupt | SystemExit => false
  | _ => true
  end.

(** ** Python values *)

(** A binary64 datum, by its 64-bit pattern; the layer only copies it. *)
Definition float64 := Z.

#[warnings="-register-all"] Inductive pyobj :=
| ObjectBase_obj (chandle : Z)
| NDArrayBase_obj (chandle : Z) (c_is_view : bool)
| NativeObject_obj (tvm_object_chandle : Z)     (* a PyNativeObject *)
| Compat_obj (_tvm_handle : Z) (_tvm_tcode : Z) (* of a class in _TVM_COMPATS *)
| PyBool (b : bool)
| PyInt (z : Z)                                 (* Integral, not bool *)
| PyFloat (f : float64)
| PyStr (s : string)
| PyNone
| PyNumber (as_float : option float64)          (* Number, neither Integral nor float *)
| DataType_obj (repr : string)
| Device_obj (device_type : Z) (device_id : Z)
| PyBytes (content : list byte)
| PyByteArray (content : list byte)
| PyList (items : list pyobj)
| PyTuple (items : list pyobj)
| PyDict (id : Z)
| ObjectGeneric_obj (id : Z)
| Module_obj (handle : Z)
| PackedFunc_obj (chandle : Z) (is_global : Z)
| c_void_p_obj (value : Z)
| ObjectRValueRef_obj (chandle_slot : Z)        (* address of obj.chandle *)
| PyCallable (id : Z)                           (* id: the object's address *)
| PyOther (type_repr : string).

Inductive pyclass :=
| ObjectBase | NDArrayBase | PyNativeObject | _TVM_COMPATS
| bool_cls | Integral | float_cls | str_cls | Number | DataType | Device
| bytes_cls | bytearray_cls | string_types
| list_cls | tuple_cls | dict_cls | _CLASS_OBJECT_GENERIC
| _CLASS_MODULE | PackedFuncBase | c_void_p | ObjectRValueRef.

(** [isinstance(arg, cls)].  A [bool] is an [Integral] and a [Number]; an
    integer and a float are [Number]s; [string_types] is [(str,)]. *)
Definition isinstance (arg : pyobj) (cls : pyclass) : bool :=
  match arg, cls with
  | ObjectBase_obj _, ObjectBase => true
  | NDArrayBase_obj _ _, NDArrayBase => true
  | NativeObject_obj _, PyNativeObject => true
  | Compat_obj _ _, _TVM_COMPATS => true
  | PyBool _, (bool_cls | Integral | Number) => true
  | PyInt _, (Integral | Number) => true
  | PyFloat _, (float_cls | Number) => true
  | PyStr _, (str_cls | string_types) => true
  | PyNumber _, Number => true
  | DataType_obj _, DataType => true
  | Device_obj _ _, Device => true
  | PyBytes _, bytes_cls => true
  | PyByteArray _, bytearray_cls => true
  | PyList _, list_cls => true
  | PyTuple _, tuple_cls => true
  | PyDict _, dict_cls => true
  | ObjectGeneric_obj _, _CLASS_OBJECT_GENERIC => true
  | Module_obj _, _CLASS_MODULE => true
  | PackedFunc_obj _ _, PackedFuncBase => true
  | c_void_p_obj _, c_void_p => true
  | ObjectRValueRef_obj _, ObjectRValueRef => true
  | _, _ => false
  end.

Definition callable (arg : pyobj) : bool :=
  match arg with
  | PyCallable _ | PackedFunc_obj _ _ | Module_obj _ => true
  | _ => false
  end.

(** [type(arg)] as it prints with [%s]. *)
Definition type_repr_of (arg : pyobj) : string :=
  match arg with
  | PyOther r => r
  | _ => "<class>"
  end.

(** ** Tagged values *)

Record DLDevice := mk_device { dev_type : Z; dev_id : Z }.

(** Modelled from the spec: the [TVMValue] union is declared outside the
    translated file.  One constructor per member the code writes; the type
    code that travels with a value says which member is the valid one. *)
Inductive TVMValue :=
| V_int64 (z : Z)
| V_float64 (f : float64)
| V_handle (p : Z)
| V_str (p : Z)
| V_device (d : DLDevice).

Definition NULL : Z := 0.

(** Reading a member.  A read of a member other than the one that was
    written is outside the model ([None]). *)
Definition v_int64 (v : TVMValue) : option Z :=
  match v with V_int64 z => Some z | _ => None end.
Definition v_float64 (v : TVMValue) : option float64 :=
  match v with V_float64 f => Some f | _ => None end.
Definition v_handle (v : TVMValue) : option Z :=
  match v with V_handle p => Some p | _ => None end.
Definition v_str (v : TVMValue) : option Z :=
  match v with V_str p => Some p | _ => None end.
Definition v_device (v : TVMValue) : option DLDevice :=
  match v with V_device d => Some d | _ => None end.

(** ** The world: temporary storage, reference counts, C API trace *)

(** What a pointer of the layer can point to. *)
Inductive cell :=
| CBytes (content : list byte)                  (* buffer of a bytes or bytearray *)
| CByteArrayDesc (data : Z) (size : Z).         (* a TVMByteArray: data, size *)

(** The objects [make_arg] appends to [temp_args] to keep them alive. *)
Inductive temp :=
| TempBuf (addr : Z)                            (* a buffer or descriptor *)
| TempObj (o : pyobj).                          (* a converted object, a wrapper *)

Inductive c_callback := Cb_tvm_callback.
Inductive c_finalizer := Fin_tvm_callback_finalize.

(** A native function created from a C callback. *)
Record closure := mk_closure {
  cl_func : c_callback; cl_resource : Z; cl_fin : c_finalizer }.

(** One entry per call of the C API or of a Python callable. *)
Inductive event :=
| Ev_Py_INCREF (o : Z)
| Ev_Py_DECREF (o : Z)
| Ev_TVMFuncCreateFromCFunc (func : c_callback) (resource : Z) (fin : c_finalizer)
| Ev_TVMFuncFree (chandle : Z)
| Ev_TVMFuncCall (chandle : Z) (values : list TVMValue) (tcodes : list Z) (nargs : Z)
| Ev_TVMCbArgToReturn (value : TVMValue) (tcode : Z)
| Ev_TVMCFuncSetReturn (ret : Z) (value : TVMValue) (tcode : Z) (num_ret : Z)
| Ev_TVMAPISetLastPythonError (err : pyexc)
| Ev_call (pyfunc : Z) (pyargs : list pyobj)
| Ev_vector_resize (size : Z)        (* a std::vector takes heap storage *)
| Ev_object_released (o : pyobj).    (* an object of another module is let go *)

Record World := mk_world {
  heap : gmap Z cell;
  next_addr : positive;
  refcnt : gmap Z Z;
  native_funcs : gmap Z closure;
  ret_slots : gmap Z (TVMValue * Z);
  last_python_error : option pyexc;
  trace : list event
}.

Definition empty_world : World :=
  mk_world ∅ 1%positive ∅ ∅ ∅ None [].

Definition set_heap (h : gmap Z cell) (n : positive) (w : World) : World :=
  mk_world h n (refcnt w) (native_funcs w) (ret_slots w)
           (last_python_error w) (trace w).
Definition set_refcnt (r : gmap Z Z) (w : World) : World :=
  mk_world (heap w) (next_addr w) r (native_funcs w) (ret_slots w)
           (last_python_error w) (trace w).
Definition set_native_funcs (n : gmap Z closure) (w : World) : World :=
  mk_world (heap w) (next_addr w) (refcnt w) n (ret_slots w)
           (last_python_error w) (trace w).
Definition set_ret_slots (r : gmap Z (TVMValue * Z)) (w : World) : World :=
  mk_world (heap w) (next_addr w) (refcnt w) (native_funcs w) r
           (last_python_error w) (trace w).
Definition set_last_python_error (e : option pyexc) (w : World) : World :=
  mk_world (heap w) (next_addr w) (refcnt w) (native_funcs w) (ret_slots w)
           e (trace w).
Definition log (ev : event) (w : World) : World :=
  mk_world (heap w) (next_addr w) (refcnt w) (native_funcs w) (ret_slots w)
           (last_python_error w) (trace w ++ [ev]).

(** The reference count of the object at address [o]. *)
Definition refcount (w : World) (o : Z) : Z := default 0 (refcnt w !! o).

(** ** The monad *)

(** A computation returns, raises a Python exception, or leaves the model
    ([Fault]: a read through a dangling pointer, an access out of a C
    array, a union member read under the wrong code). *)
Inductive outcome (A : Type) :=
| Ok (a : A)
| Raise (e : pyexc)
| Fault.
Arguments Ok {A} a.
Arguments Raise {A} e.
Arguments Fault {A}.

Definition M (A : Type) : Type := World -> outcome A * World.

Definition M_ret {A} (a : A) : M A := fun w => (Ok a, w).
Definition M_bind {A B} (k : A -> M B) (m : M A) : M B := fun w =>
  match m w with
  | (Ok a, w') => k a w'
  | (Raise e, w') => (Raise e, w')
  | (Fault, w') => (Fault, w')
  end.

#[global] Instance M_mret : MRet M := @M_ret.
#[global] Instance M_mbind : MBind M := @M_bind.

Definition raise {A} (e : pyexc) : M A := fun w => (Raise e, w).
Definition fault {A} : M A := fun w => (Fault, w).
Definition get_world : M World := fun w => (Ok w, w).
Definition modify (f : World -> World) : M unit := fun w => (Ok tt, f w).
Definition emit (ev : event) : M unit := modify (log ev).

(** Lift an oracle's outcome, and a read that may leave the model. *)
Definition lift_outcome {A} (o : outcome A) : M A := fun w => (o, w).
Definition defined {A} (o : option A) : M A :=
  match o with Some a => mret a | None => fault end.

(** [m] only takes worlds to worlds related by [P]. *)
Definition preserves {A} (P : World -> World -> Prop) (m : M A) : Prop :=
  forall w o w', m w = (o, w') -> P w w'.

(** Only the heap changed: no call was logged, no count or slot touched. *)
Definition heap_only (w w' : World) : Prop :=
  trace w' = trace w /\ refcnt w' = refcnt w /\
  native_funcs w' = native_funcs w /\ ret_slots w' = ret_slots w /\
  last_python_error w' = last_python_error w.


(** The trace grew by events that all satisfy [ok]. *)
Definition logged_only (ok : event -> bool) (w w' : World) : Prop :=
  exists evs, trace w' = trace w ++ evs /\ Forall (fun ev => ok ev = true) evs.

Definition alloc (c : cell) : M Z := fun w =>
  let a := Z.pos (next_addr w) in
  (Ok a, set_heap (<[a := c]> (heap w)) (Pos.succ (next_addr w)) w).

Definition load (a : Z) : M cell := fun w =>
  match heap w !! a with
  | Some c => (Ok c, w)
  | None => (Fault, w)
  end.

(** ** Strings across the boundary *)

(** A [char*] names the bytes up to the first NUL. *)
Fixpoint c_string (buf : list byte) : list byte :=
  match buf with
  | [] => []
  | b :: rest => if Byte.eqb b "000"%byte then [] else b :: c_string rest
  end.

(** Modelled from the spec: [c_str] and [py_str] are helpers of base.pxi.
    "String-tagged values are copied into an owned string": [c_str]
    encodes a str as UTF-8, [py_str] receives a [char*] and decodes the C
    string found there.  A str is represented by its UTF-8 bytes, so that
    encoding reads them off and decoding puts them back; a str that has no
    UTF-8 encoding is not represented. *)
Definition c_str (s : string) : list byte := String.list_byte_of_string s.
Definition py_str (x : list byte) : string :=
  String.string_of_list_byte (c_string x).

(** ** What the layer calls but does not define *)

(** The helpers of the sibling files and the native runtime, as the layer
    sees them: functions of their arguments. *)
Class Extern := {
  (* the registered container conversion, a Python function *)
  _FUNC_CONVERT_TO_OBJECT : pyobj -> outcome pyobj;
  (* the registered per-code decoders of extension types *)
  _TVM_EXT_RET : gmap Z (Z -> pyobj);
  (* calling the Python callable at an address *)
  call_pyfunc : Z -> list pyobj -> outcome pyobj;
  traceback_format_exc : pyexc -> string;
  py2cerror : string -> string;
  (* the C API: status, and the values written through the out pointers *)
  native_TVMFuncCall : Z -> list TVMValue -> list Z -> Z -> Z * TVMValue * Z;
  native_TVMCbArgToReturn : TVMValue -> Z -> Z * TVMValue * Z;
  native_TVMCFuncSetReturn : Z -> TVMValue -> Z -> Z -> Z;
  native_TVMFuncCreateFromCFunc : Z -> Z * Z;
  native_TVMFuncFree : Z -> Z;
  (* the message in the native error slot *)
  native_last_error : string;
  (* what an uninitialised stack slot happens to hold *)
  stack_value : TVMValue;
  stack_tcode : Z;
  (* whether [assert] statements are executed (they are not under
     python -O) *)
  assertions_enabled : bool
}.

Section Layer.
Context {tc : TypeCodes} {ext : Extern}.

(** Modelled from the spec: [CHECK_CALL] is defined in base.pxi.  "A
    non-zero status triggers translation of the native Error Slot into a
    raised failure at the call site; the failure carries the native-side
    message verbatim." *)
Definition CHECK_CALL (code : Z) : M unit :=
  if code =? 0 then mret tt else raise (mk_exc TVMError native_last_error).

(** *** Conversions Cython inserts at typed assignments *)

(** [<int64_t> arg]: a Python integer that does not fit raises. *)
Definition as_int64 (arg : pyobj) : M Z :=
  match arg with
  | PyBool b => mret (Z.b2z b)
  | PyInt z =>
      if in_int64 z then mret z
      else raise (mk_exc OverflowError "Python int too large to convert to C long")
  | _ => raise (mk_exc TypeError "an integer is required")
  end.

(** [<double> arg], through [__float__]. *)
Definition as_double (arg : pyobj) : M float64 :=
  match arg with
  | PyFloat f => mret f
  | PyNumber (Some f) => mret f
  | PyNumber None => raise (mk_exc TypeError "must be real number")
  | _ => fault
  end.

Definition as_uint64 (z : Z) : M Z :=
  if in_uint64 z then mret z
  else raise (mk_exc OverflowError "value does not fit unsigned long long").

Definition as_int (z : Z) : M Z :=
  if in_int z then mret z
  else raise (mk_exc OverflowError "value too large to convert to int").

(** *** Typed field reads: [(<ObjectBase>arg).chandle] and the like *)

Definition ObjectBase_chandle (arg : pyobj) : option Z :=
  match arg with ObjectBase_obj h => Some h | _ => None end.
Definition NDArrayBase_fields (arg : pyobj) : option (Z * bool) :=
  match arg with NDArrayBase_obj h v => Some (h, v) | _ => None end.
Definition tvm_object_chandle_of (arg : pyobj) : option Z :=
  match arg with NativeObject_obj h => Some h | _ => None end.
Definition compat_fields (arg : pyobj) : option (Z * Z) :=
  match arg with Compat_obj h t => Some (h, t) | _ => None end.
Definition str_of (arg : pyobj) : option string :=
  match arg with PyStr s | DataType_obj s => Some s | _ => None end.
Definition device_of (arg : pyobj) : option DLDevice :=
  match arg with Device_obj t i => Some (mk_device t i) | _ => None end.
Definition bytes_of (arg : pyobj) : option (list byte) :=
  match arg with PyBytes l | PyByteArray l => Some l | _ => None end.
Definition handle_of (arg : pyobj) : option Z :=
  match arg with Module_obj h | c_void_p_obj h => Some h | _ => None end.
Definition PackedFuncBase_chandle (arg : pyobj) : option Z :=
  match arg with PackedFunc_obj h _ => Some h | _ => None end.
Definition PackedFuncBase_is_global (arg : pyobj) : option Z :=
  match arg with PackedFunc_obj _ g => Some g | _ => None end.
Definition chandle_slot_of (arg : pyobj) : option Z :=
  match arg with ObjectRValueRef_obj a => Some a | _ => None end.
(** [<void*>(pyfunc)]: the address of a Python object. *)
Definition address_of (arg : pyobj) : option Z :=
  match arg with PyCallable a => Some a | _ => None end.

(** *** Reference counts and the C API *)

Definition Py_INCREF (o : Z) : M unit :=
  emit (Ev_Py_INCREF o) ;;
  modify (fun w => set_refcnt (<[o := refcount w o + 1]> (refcnt w)) w).

Definition Py_DECREF (o : Z) : M unit :=
  emit (Ev_Py_DECREF o) ;;
  modify (fun w => set_refcnt (<[o := refcount w o - 1]> (refcnt w)) w).

(** Modelled from the spec: the handle-creation primitive,
    "(trampoline_entry_point, closure_handle, finalizer_entry_point) ->
    function_handle".  On success the native side holds the closure under
    the handle it returns. *)
Definition TVMFuncCreateFromCFunc (func : c_callback) (resource_handle : Z)
    (fin : c_finalizer) : M (Z * Z) :=
  emit (Ev_TVMFuncCreateFromCFunc func resource_handle fin) ;;
  let '(status, out) := native_TVMFuncCreateFromCFunc resource_handle in
  (if status =? 0 then
     modify (fun w => set_native_funcs
       (<[out := mk_closure func resource_handle fin]> (native_funcs w)) w)
   else mret tt) ;;
  mret (status, out).

Definition TVMFuncCall (chandle : Z) (values : list TVMValue) (tcodes : list Z)
    (nargs : Z) : M (Z * TVMValue * Z) :=
  emit (Ev_TVMFuncCall chandle values tcodes nargs) ;;
  mret (native_TVMFuncCall chandle values tcodes nargs).

Definition TVMCbArgToReturn (value : TVMValue) (tcode : Z) : M (Z * TVMValue * Z) :=
  emit (Ev_TVMCbArgToReturn value tcode) ;;
  mret (native_TVMCbArgToReturn value tcode).

(** Modelled from the spec: the set-return primitive "populates the slot
    the calling convention expects; ignoring it leaves the return value as
    null". *)
Definition TVMCFuncSetReturn (ret : Z) (value : TVMValue) (tcode : Z)
    (num_ret : Z) : M Z :=
  emit (Ev_TVMCFuncSetReturn ret value tcode num_ret) ;;
  let status := native_TVMCFuncSetReturn ret value tcode num_ret in
  (if status =? 0 then
     modify (fun w => set_ret_slots (<[ret := (value, tcode)]> (ret_slots w)) w)
   else mret tt) ;;
  mret status.

Definition TVMAPISetLastPythonError (err : pyexc) : M unit :=
  emit (Ev_TVMAPISetLastPythonError err) ;;
  modify (set_last_python_error (Some err)).

(** ** The finalizer and the wrapper of a Python callable *)

Definition tvm_callback_finalize (fhandle : Z) : M unit :=
  let local_pyfunc := fhandle in
  Py_DECREF local_pyfunc.

Definition make_packed_func (chandle : Z) (is_global : Z) : pyobj :=
  PackedFunc_obj chandle is_global.

Definition convert_to_tvm_func (pyfunc : pyobj) : M pyobj :=
  p ← defined (address_of pyfunc);
  Py_INCREF p ;;
  '(status, chandle) ← TVMFuncCreateFromCFunc Cb_tvm_callback p
                          Fin_tvm_callback_finalize;
  CHECK_CALL status ;;
  mret (make_packed_func chandle 0).

(** ** The argument encoder *)

(** Modelled from the spec: [make_ret_object], [c_make_array] and
    [ctypes_handle] live in sibling files.  "Object/PackedFunction/Module/
    NDArray handles each wrap the raw handle into the foreign-side
    representation appropriate to that kind"; an array wrapper records
    whether it is a borrowed view ([is_view]), the flag [make_arg] reads
    back as [c_is_view]; [is_container] only selects the wrapper's class. *)
Definition make_ret_object (chandle : Z) : pyobj := ObjectBase_obj chandle.
Definition c_make_array (chandle : Z) (is_view is_container : bool) : pyobj :=
  NDArrayBase_obj chandle is_view.
Definition ctypes_handle (chandle : Z) : pyobj := c_void_p_obj chandle.
Definition c_handle (handle : Z) : Z := handle.

(** [tstr = c_str(s); value[0].v_str = tstr; temp_args.append(tstr)]: the
    encoded bytes object is a fresh buffer, the value points into it. *)
Definition encode_str (s : string) (tcode : Z) (temp_args : list temp)
    : M (TVMValue * Z * list temp) :=
  tstr ← alloc (CBytes (c_str s));
  mret (V_str tstr, tcode, temp_args ++ [TempBuf tstr]).

Definition make_arg (arg : pyobj) (temp_args : list temp)
    : M (TVMValue * Z * list temp) :=
  if isinstance arg ObjectBase then
    h ← defined (ObjectBase_chandle arg);
    mret (V_handle h, kTVMObjectHandle, temp_args)
  else if isinstance arg NDArrayBase then
    '(h, c_is_view) ← defined (NDArrayBase_fields arg);
    mret (V_handle h,
          if negb c_is_view then kTVMNDArrayHandle else kTVMDLTensorHandle,
          temp_args)
  else if isinstance arg PyNativeObject then
    h ← defined (tvm_object_chandle_of arg);
    mret (V_handle h, kTVMObjectHandle, temp_args)
  else if isinstance arg _TVM_COMPATS then
    '(handle, code) ← defined (compat_fields arg);
    ptr ← as_uint64 handle;
    t ← as_int code;
    mret (V_handle ptr, t, temp_args)
  else if isinstance arg bool_cls then
    (* A python `bool` is a subclass of `int`, so this check
       must occur before `Integral`. *)
    z ← as_int64 arg;
    mret (V_int64 z, kTVMArgBool, temp_args)
  else if isinstance arg Integral then
    z ← as_int64 arg;
    mret (V_int64 z, kInt, temp_args)
  else if isinstance arg float_cls then
    f ← as_double arg;
    mret (V_float64 f, kFloat, temp_args)
  else if isinstance arg str_cls then
    s ← defined (str_of arg);
    encode_str s kTVMStr temp_args
  else if match arg with PyNone => true | _ => false end then
    mret (V_handle NULL, kTVMNullptr, temp_args)
  else if isinstance arg Number then
    f ← as_double arg;
    mret (V_float64 f, kFloat, temp_args)
  else if isinstance arg DataType then
    s ← defined (str_of arg);
    encode_str s kTVMStr temp_args
  else if isinstance arg Device then
    d ← defined (device_of arg);
    mret (V_device d, kDLDevice, temp_args)
  else if isinstance arg bytes_cls || isinstance arg bytearray_cls then
    content ← defined (bytes_of arg);
    (* from_buffer only takes in bytearray: a bytes is copied first, and
       the copy is kept alive; a bytearray lends its own buffer *)
    buf ← alloc (CBytes content);
    let temp_args1 :=
      if isinstance arg bytes_cls then temp_args ++ [TempBuf buf]
      else temp_args in
    arr ← alloc (CByteArrayDesc buf (Z.of_nat (length content)));
    mret (V_handle arr, kTVMBytes, temp_args1 ++ [TempBuf arr])
  else if isinstance arg string_types then
    s ← defined (str_of arg);
    encode_str s kTVMStr temp_args
  else if isinstance arg list_cls || isinstance arg tuple_cls
          || isinstance arg dict_cls || isinstance arg _CLASS_OBJECT_GENERIC then
    arg' ← lift_outcome (_FUNC_CONVERT_TO_OBJECT arg);
    h ← defined (ObjectBase_chandle arg');
    mret (V_handle h, kTVMObjectHandle, temp_args ++ [TempObj arg'])
  else if isinstance arg _CLASS_MODULE then
    h ← defined (handle_of arg);
    mret (V_handle (c_handle h), kTVMModuleHandle, temp_args)
  else if isinstance arg PackedFuncBase then
    h ← defined (PackedFuncBase_chandle arg);
    mret (V_handle h, kTVMPackedFuncHandle, temp_args)
  else if isinstance arg c_void_p then
    h ← defined (handle_of arg);
    mret (V_handle (c_handle h), kTVMOpaqueHandle, temp_args)
  else if isinstance arg ObjectRValueRef then
    slot ← defined (chandle_slot_of arg);
    mret (V_handle slot, kTVMObjectRefArg, temp_args)
  else if callable arg then
    arg' ← convert_to_tvm_func arg;
    h ← defined (PackedFuncBase_chandle arg');
    mret (V_handle h, kTVMPackedFuncHandle, temp_args ++ [TempObj arg'])
  else
    raise (mk_exc TypeError ("Don't know how to handle type " +:+ type_repr_of arg)).

(** ** The result decoder *)

(** The bytes a pointer of the layer points to. *)
Definition load_bytes (p : Z) : M (list byte) :=
  c ← load p;
  match c with
  | CBytes l => mret l
  | _ => fault
  end.

Definition make_ret_bytes (chandle : Z) : M pyobj :=
  arr ← load chandle;
  match arr with
  | CByteArrayDesc data size =>
      src ← load_bytes data;
      if (0 <=? size) && (size <=? Z.of_nat (length src)) then
        let res := take (Z.to_nat size) src in
        (* memmove returns its destination, the buffer of [res] *)
        rptr ← alloc (CBytes res);
        if rptr =? 0 then raise (mk_exc RuntimeError "memmove failed")
        else mret (PyByteArray res)
      else fault
  | _ => fault
  end.

Definition make_ret (value : TVMValue) (tcode : Z) : M pyobj :=
  if tcode =? kTVMObjectHandle then
    h ← defined (v_handle value); mret (make_ret_object h)
  else if tcode =? kTVMNullptr then
    mret PyNone
  else if tcode =? kTVMArgBool then
    z ← defined (v_int64 value); mret (PyBool (negb (z =? 0)))
  else if tcode =? kInt then
    z ← defined (v_int64 value); mret (PyInt z)
  else if tcode =? kFloat then
    f ← defined (v_float64 value); mret (PyFloat f)
  else if tcode =? kTVMNDArrayHandle then
    h ← defined (v_handle value); mret (c_make_array h false true)
  else if tcode =? kTVMStr then
    p ← defined (v_str value); s ← load_bytes p; mret (PyStr (py_str s))
  else if tcode =? kTVMBytes then
    h ← defined (v_handle value); make_ret_bytes h
  else if tcode =? kTVMOpaqueHandle then
    h ← defined (v_handle value); mret (ctypes_handle h)
  else if tcode =? kDLDevice then
    d ← defined (v_device value); mret (Device_obj (dev_type d) (dev_id d))
  else if tcode =? kTVMModuleHandle then
    h ← defined (v_handle value); mret (Module_obj h)
  else if tcode =? kTVMPackedFuncHandle then
    h ← defined (v_handle value); mret (make_packed_func h 0)
  else
    match _TVM_EXT_RET !! tcode with
    | Some decoder => h ← defined (v_handle value); mret (decoder h)
    | None => raise (mk_exc ValueError ("Unhandled type code " +:+ pretty tcode))
    end.

(** ** The wrapper class *)

Definition run_finalizer (fin : c_finalizer) (resource_handle : Z) : M unit :=
  match fin with
  | Fin_tvm_callback_finalize => tvm_callback_finalize resource_handle
  end.

(** Modelled from the spec: the free primitive, "a reference release for
    local/wrapped handles"; the finalizer is "the deleter of the fhandle"
    and runs "when the FunctionHandle get freed". *)
Definition TVMFuncFree (chandle : Z) : M Z :=
  emit (Ev_TVMFuncFree chandle) ;;
  let status := native_TVMFuncFree chandle in
  (if status =? 0 then
     w ← get_world;
     match native_funcs w !! chandle with
     | Some cl =>
         modify (fun w => set_native_funcs (delete chandle (native_funcs w)) w) ;;
         run_finalizer (cl_fin cl) (cl_resource cl)
     | None => mret tt
     end
   else mret tt) ;;
  mret status.

(** [PackedFuncBase.__dealloc__] *)
Definition PackedFuncBase_dealloc (self : pyobj) : M unit :=
  is_global ← defined (PackedFuncBase_is_global self);
  chandle ← defined (PackedFuncBase_chandle self);
  if is_global =? 0 then
    status ← TVMFuncFree chandle; CHECK_CALL status
  else mret tt.

(** ** Letting go of [temp_args]

    [temp_args] is a local list of the invoker.  When the function is
    left, by a return or by an exception, the list is let go and every
    entry with it, the last one first: the memory of a buffer or
    descriptor is freed; a wrapper that [make_arg] made of a callable is
    deallocated; a converted object is let go, which is its own module's
    matter.  An exception raised while deallocating cannot be raised
    further and is dropped. *)

Definition unraisable (m : M unit) : M unit := fun w => (Ok tt, (m w).2).

Definition release_temp (t : temp) : M unit :=
  match t with
  | TempBuf addr =>
      modify (fun w => set_heap (delete addr (heap w)) (next_addr w) w)
  | TempObj o =>
      if isinstance o PackedFuncBase then unraisable (PackedFuncBase_dealloc o)
      else emit (Ev_object_released o)
  end.

Fixpoint release_all (temps : list temp) : M unit :=
  match temps with
  | [] => mret tt
  | t :: rest => release_temp t ;; release_all rest
  end.

Definition release_temp_args (temp_args : list temp) : M unit :=
  release_all (reverse temp_args).

(** Run [cleanup] when [m] raises, and whenever [m] ends. *)
Definition on_raise {A} (cleanup : M unit) (m : M A) : M A := fun w =>
  match m w with
  | (Raise e, w') => (Raise e, (cleanup w').2)
  | r => r
  end.
Definition on_exit {A} (cleanup : M unit) (m : M A) : M A := fun w =>
  let '(o, w') := m w in (o, (cleanup w').2).

(** ** The call invokers *)

(** A write through [&values[i]] into a C array; out of the array it
    leaves the model. *)
Definition store {A} (arr : list A) (i : nat) (x : A) : M (list A) :=
  if decide (i < length arr)%nat then mret (<[i := x]> arr) else fault.

(** [for i in range(nargs): make_arg(args[i], &values[i], &tcodes[i],
    temp_args)], as a recursion on the arguments from index [i] on.  An
    exception of [make_arg] leaves the invoker, which lets [temp_args]
    go as it stands. *)
Fixpoint pack_args (args : list pyobj) (i : nat) (values : list TVMValue)
    (tcodes : list Z) (temp_args : list temp)
    : M (list TVMValue * list Z * list temp) :=
  match args with
  | [] => mret (values, tcodes, temp_args)
  | arg :: rest =>
      '(value, tcode, temp_args') ←
        on_raise (release_temp_args temp_args) (make_arg arg temp_args);
      values' ← store values i value;
      tcodes' ← store tcodes i tcode;
      pack_args rest (S i) values' tcodes' temp_args'
  end.

(** The out parameters [ret_val] and [ret_tcode] are the result. *)
Definition FuncCall3 (chandle : Z) (args : list pyobj) (nargs : Z)
    : M (TVMValue * Z) :=
  let values := replicate 3 stack_value in
  let tcodes := replicate 3 stack_tcode in
  nargs ← as_int (Z.of_nat (length args));
  let temp_args := [] in
  (* Pack arguments into c args tvm call accept *)
  '(values, tcodes, temp_args) ← pack_args args 0 values tcodes temp_args;
  on_exit (release_temp_args temp_args)
    ('(c_api_ret_code, ret_val, ret_tcode) ←
       TVMFuncCall chandle (take (Z.to_nat nargs) values)
                   (take (Z.to_nat nargs) tcodes) nargs;
     CHECK_CALL c_api_ret_code ;;
     mret (ret_val, ret_tcode)).

(** The statements of [FuncCall] after the test of [nargs]: the two
    vectors take heap storage for [max(nargs, 1)] zeroed entries. *)
Definition FuncCall_vector (chandle : Z) (args : list pyobj) (nargs : Z)
    : M (TVMValue * Z) :=
  emit (Ev_vector_resize (Z.max nargs 1)) ;;
  let values := replicate (Z.to_nat (Z.max nargs 1)) (V_int64 0) in
  emit (Ev_vector_resize (Z.max nargs 1)) ;;
  let tcodes := replicate (Z.to_nat (Z.max nargs 1)) 0 in
  let temp_args := [] in
  (* Pack arguments into c args tvm call accept *)
  '(values, tcodes, temp_args) ← pack_args args 0 values tcodes temp_args;
  on_exit (release_temp_args temp_args)
    ('(c_api_ret_code, ret_val, ret_tcode) ←
       TVMFuncCall chandle (take (Z.to_nat nargs) values)
                   (take (Z.to_nat nargs) tcodes) nargs;
     CHECK_CALL c_api_ret_code ;;
     mret (ret_val, ret_tcode)).

Definition FuncCall (chandle : Z) (args : list pyobj) : M (TVMValue * Z) :=
  nargs ← as_int (Z.of_nat (length args));
  (* If the number of args is less than or equal to 3, just use an array
     to store the arguments. Else, use a vector. *)
  if nargs <=? 3 then FuncCall3 chandle args nargs
  else FuncCall_vector chandle args nargs.

(** The [assert] is executed when assertions are enabled; under
    python -O the statement is not there. *)
Definition ConstructorCall (constructor_handle : Z) (type_code : Z)
    (args : list pyobj) : M Z :=
  '(ret_val, ret_tcode) ← FuncCall constructor_handle args;
  (* assert ret_tcode == type_code *)
  (if assertions_enabled && negb (ret_tcode =? type_code)
   then raise (mk_exc AssertionError "")
   else mret tt) ;;
  handle ← defined (v_handle ret_val);
  mret handle.

(** ** Calling a wrapper *)


(** ** The callback trampoline *)

(** The test that guards [TVMCbArgToReturn]. *)
Definition needs_arg_to_return (tcode : Z) : bool :=
  (tcode =? kTVMObjectHandle) || (tcode =? kTVMPackedFuncHandle)
  || (tcode =? kTVMModuleHandle) || (tcode =? kTVMNDArrayHandle)
  || (tcode =? kTVMObjectRefArg) || (kTVMExtBegin <=? tcode).

(** The body of the loop over the incoming arguments. *)
Definition callback_arg (value : TVMValue) (tcode : Z) : M pyobj :=
  '(value, tcode) ←
    (if needs_arg_to_return tcode then
       '(status, value', tcode') ← TVMCbArgToReturn value tcode;
       CHECK_CALL status ;;
       mret (value', tcode')
     else mret (value, tcode));
  if negb (tcode =? kTVMDLTensorHandle) then make_ret value tcode
  else h ← defined (v_handle value); mret (c_make_array h true false).

(** [for i in range(num_args)], reading [args[i]] and [type_codes[i]]. *)
Fixpoint callback_args (idx : list nat) (args : list TVMValue)
    (type_codes : list Z) (pyargs : list pyobj) : M (list pyobj) :=
  match idx with
  | [] => mret pyargs
  | i :: idx' =>
      value ← defined (args !! i);
      tcode ← defined (type_codes !! i);
      o ← callback_arg value tcode;
      callback_args idx' args type_codes (pyargs ++ [o])
  end.

Definition is_None (o : pyobj) : bool :=
  match o with PyNone => true | _ => false end.

Definition tvm_callback (args : list TVMValue) (type_codes : list Z)
    (num_args : Z) (ret : Z) (fhandle : Z) : M Z :=
  let local_pyfunc := fhandle in
  pyargs ← callback_args (seq 0 (Z.to_nat num_args)) args type_codes [];
  emit (Ev_call local_pyfunc pyargs) ;;
  match call_pyfunc local_pyfunc pyargs with
  | Raise err =>
      if is_Exception err then
        let msg := traceback_format_exc err in
        let msg := py2cerror msg in
        TVMAPISetLastPythonError err ;;
        mret (-1)
      else raise err
  | Fault => fault
  | Ok rv =>
      (if negb (is_None rv) then
         if isinstance rv tuple_cls then
           raise (mk_exc ValueError
                    "PackedFunction can only support one return value")
         else
           let temp_args := [] in
           '(value, tcode, temp_args) ← make_arg rv temp_args;
           status ← TVMCFuncSetReturn ret value tcode 1;
           CHECK_CALL status
       else mret tt) ;;
      mret 0
  end.



(** ** The call as the spec words it *)

(** "An ordered sequence of (Tagged Value, Type Code) pairs plus a side
    list of temporary owned buffers": the arguments encoded one after the
    other, with no buffer in sight. *)
Fixpoint encode_args (args : list pyobj) (temp_args : list temp)
    : M (list TVMValue * list Z * list temp) :=
  match args with
  | [] => mret ([], [], temp_args)
  | arg :: rest =>
      '(value, tcode, temp_args') ←
        on_raise (release_temp_args temp_args) (make_arg arg temp_args);
      '(values, tcodes, temp_args'') ← encode_args rest temp_args';
      mret (value :: values, tcode :: tcodes, temp_args'')
  end.

(** "Both paths converge on the same underlying native invocation
    primitive: it accepts a pointer to the value array, a pointer to the
    type-code array, the argument count, and an output slot." *)
Definition FuncCall_spec (chandle : Z) (args : list pyobj) : M (TVMValue * Z) :=
  nargs ← as_int (Z.of_nat (length args));
  '(values, tcodes, temp_args) ← encode_args args [];
  on_exit (release_temp_args temp_args)
    ('(c_api_ret_code, ret_val, ret_tcode) ←
       TVMFuncCall chandle values tcodes nargs;
     CHECK_CALL c_api_ret_code ;;
     mret (ret_val, ret_tcode)).

(** [FuncCall]'s prologue followed by its general path. *)
Definition FuncCall_general (chandle : Z) (args : list pyobj) : M (TVMValue * Z) :=
  nargs ← as_int (Z.of_nat (length args));
  FuncCall_vector chandle args nargs.

(** The world in which the call of the spec starts: as it is on the
    3-slot path, with the storage of the two vectors taken on the other. *)
Definition vector_storage (args : list pyobj) (w : World) : World :=
  let nargs := Z.of_nat (length args) in
  if in_int nargs && negb (nargs <=? 3)
  then log (Ev_vector_resize nargs) (log (Ev_vector_resize nargs) w)
  else w.

(** The decoding step of the trampoline's loop, after the translation. *)
Definition decode_callback_arg (value : TVMValue) (tcode : Z) : M pyobj :=
  if negb (tcode =? kTVMDLTensorHandle) then make_ret value tcode
  else h ← defined (v_handle value); mret (c_make_array h true false).




End Layer.

(** ** A concrete runtime, to run the model *)

Definition sum_int64 (values : list TVMValue) : Z :=
  foldr (fun v acc => default 0 (v_int64 v) + acc) 0 values.

(** Python callables by address: 1 returns its first argument, 2 raises a
    ValueError, 3 is interrupted, 4 returns a pair, 5 returns an object of
    a class the encoder does not know; the others return None.  Native
    functions by handle: 100 adds its integer arguments, 101 returns its
    third argument, 102 returns a value tagged as a tensor view, 103 and
    104 are constructors returning a module and an object handle. *)
Definition sample_runtime : Extern := {|
  _FUNC_CONVERT_TO_OBJECT := fun _ => Ok (ObjectBase_obj 2048);
  _TVM_EXT_RET := ∅;
  call_pyfunc := fun f pyargs =>
    if f =? 1 then Ok (default PyNone (pyargs !! 0%nat))
    else if f =? 2 then Raise (mk_exc ValueError "boom")
    else if f =? 3 then Raise (mk_exc KeyboardInterrupt "")
    else if f =? 4 then Ok (PyTuple [PyInt 1; PyInt 2])
    else if f =? 5 then Ok (PyOther "<class 'object'>")
    else Ok PyNone;
  traceback_format_exc := fun e => "Traceback: " +:+ exc_msg e;
  py2cerror := fun msg => msg;
  native_TVMFuncCall := fun h values tcodes nargs =>
    if h =? 100 then (0, V_int64 (sum_int64 values), @kInt c_runtime_codes)
    else if h =? 101 then
      (0, default (V_int64 0) (values !! 2%nat),
       default (@kTVMNullptr c_runtime_codes) (tcodes !! 2%nat))
    else if h =? 102 then (0, V_handle 4096, @kTVMDLTensorHandle c_runtime_codes)
    else if h =? 103 then (0, V_handle 4096, @kTVMModuleHandle c_runtime_codes)
    else if h =? 104 then (0, V_handle 4096, @kTVMObjectHandle c_runtime_codes)
    else (-1, V_int64 0, 0);
  native_TVMCbArgToReturn := fun v t => (0, v, t);
  native_TVMCFuncSetReturn := fun _ _ _ _ => 0;
  native_TVMFuncCreateFromCFunc := fun p => (0, p + 1000);
  native_TVMFuncFree := fun _ => 0;
  native_last_error := "native failure";
  stack_value := V_float64 (-1);
  stack_tcode := 77;
  assertions_enabled := true
|}.

(** ** Vocabulary of the properties *)

(** The value kinds that are not handles. *)
Definition non_handle_kind (v : pyobj) : bool :=
  match v with
  | PyInt _ | PyFloat _ | PyBool _ | PyNone | PyStr _ | PyBytes _
  | PyByteArray _ | Device_obj _ _ => true
  | _ => false
  end.

(** An integer fits the signed 64-bit member. *)
Definition fits_int64 (v : pyobj) : bool :=
  match v with
  | PyInt z => in_int64 z
  | _ => true
  end.

(** A string has no NUL character. *)
Definition NUL_free (v : pyobj) : bool :=
  match v with
  | PyStr s => forallb (fun b => negb (Byte.eqb b "000"%byte)) (c_str s)
  | _ => true
  end.

(** Equal values: the same value, or a bytearray with the content of a
    bytes (the decoder returns every byte buffer as a bytearray). *)
Inductive equal_value : pyobj -> pyobj -> Prop :=
| equal_same v : equal_value v v
| equal_bytearray_bytes l : equal_value (PyByteArray l) (PyBytes l).

Definition not_TVMFuncCall (ev : event) : bool :=
  match ev with Ev_TVMFuncCall _ _ _ _ => false | _ => true end.

Definition not_vector_resize (ev : event) : bool :=
  match ev with Ev_vector_resize _ => false | _ => true end.


(** What the wrapping of a callable logs, and what letting [temp_args]
    go logs. *)
Definition encoding_event (ev : event) : bool :=
  match ev with
  | Ev_Py_INCREF _ | Ev_TVMFuncCreateFromCFunc _ _ _ => true
  | _ => false
  end.

Definition release_event (ev : event) : bool :=
  match ev with
  | Ev_TVMFuncFree _ | Ev_Py_DECREF _ | Ev_object_released _ => true
  | _ => false
  end.


(** The world after the buffer and the descriptor of a byte value were
    allocated. *)
Definition bytes_world (content : list byte) (w : World) : World :=
  set_heap (<[Z.pos (Pos.succ (next_addr w)) :=
              CByteArrayDesc (Z.pos (next_addr w)) (Z.of_nat (length content))]>
              (<[Z.pos (next_addr w) := CBytes content]> (heap w)))
           (Pos.succ (Pos.succ (next_addr w))) w.

(** Whether a message names a type code (contains its decimal digits). *)
Definition mentions (code : Z) (msg : string) : bool :=
  match String.index 0 (pretty code) msg with
  | Some _ => true
  | None => false
  end.

(** ** The global function lookup *)

Section GlobalFunctions.
Context {tc : TypeCodes} {ext : Extern}.

(** The registry of the native runtime, as [TVMFuncGetGlobal] shows it: a
    status and the handle written through the out pointer, [NULL] when no
    function has the name. *)
Variable native_TVMFuncGetGlobal : list byte -> Z * Z.

(** [make_packed_func(chandle, True)] stores 1 in the C int [is_global]. *)
Definition _get_global_func (name : string) (allow_missing : bool) : M pyobj :=
  let '(status, chandle) := native_TVMFuncGetGlobal (c_str name) in
  CHECK_CALL status ;;
  if negb (chandle =? NULL) then mret (make_packed_func chandle 1)
  else if allow_missing then mret PyNone
  else raise (mk_exc ValueError ("Cannot find global function " +:+ name)).

End GlobalFunctions.

(** A registry with one function, to run the lookup. *)
Definition sample_registry (name : list byte) : Z * Z :=
  if String.eqb (String.string_of_list_byte name) "runtime.known"
  then (0, 100) else (0, NULL).

(** The concrete runtime with a creation primitive that always fails. *)
Definition failing_runtime : Extern := {|
  _FUNC_CONVERT_TO_OBJECT := @_FUNC_CONVERT_TO_OBJECT sample_runtime;
  _TVM_EXT_RET := @_TVM_EXT_RET sample_runtime;
  call_pyfunc := @call_pyfunc sample_runtime;
  traceback_format_exc := @traceback_format_exc sample_runtime;
  py2cerror := @py2cerror sample_runtime;
  native_TVMFuncCall := @native_TVMFuncCall sample_runtime;
  native_TVMCbArgToReturn := @native_TVMCbArgToReturn sample_runtime;
  native_TVMCFuncSetReturn := @native_TVMCFuncSetReturn sample_runtime;
  native_TVMFuncCreateFromCFunc := fun _ => (-1, NULL);
  native_TVMFuncFree := @native_TVMFuncFree sample_runtime;
  native_last_error := "cannot create function";
  stack_value := @stack_value sample_runtime;
  stack_tcode := @stack_tcode sample_runtime;
  assertions_enabled := true
|}.

(** The concrete runtime under python -O. *)
Definition optimized_runtime : Extern := {|
  _FUNC_CONVERT_TO_OBJECT := @_FUNC_CONVERT_TO_OBJECT sample_runtime;
  _TVM_EXT_RET := @_TVM_EXT_RET sample_runtime;
  call_pyfunc := @call_pyfunc sample_runtime;
  traceback_format_exc := @traceback_format_exc sample_runtime;
  py2cerror := @py2cerror sample_runtime;
  native_TVMFuncCall := @native_TVMFuncCall sample_runtime;
  native_TVMCbArgToReturn := @native_TVMCbArgToReturn sample_runtime;
  native_TVMCFuncSetReturn := @native_TVMCFuncSetReturn sample_runtime;
  native_TVMFuncCreateFromCFunc := @native_TVMFuncCreateFromCFunc sample_runtime;
  native_TVMFuncFree := @native_TVMFuncFree sample_runtime;
  native_last_error := @native_last_error sample_runtime;
  stack_value := @stack_value sample_runtime;
  stack_tcode := @stack_tcode sample_runtime;
  assertions_enabled := false
|}.

(** ** More vocabulary *)

Definition not_Ev_call (ev : event) : bool :=
  match ev with Ev_call _ _ => false | _ => true end.

(** The codes [make_ret] decodes itself, in the order it tests them. *)
Definition decoded_codes `{TypeCodes} : list Z :=
  [kTVMObjectHandle; kTVMNullptr; kTVMArgBool; kInt; kFloat;
   kTVMNDArrayHandle; kTVMStr; kTVMBytes; kTVMOpaqueHandle; kDLDevice;
   kTVMModuleHandle; kTVMPackedFuncHandle].

(** The handle codes a decoded object is encoded back to. *)
Definition round_trip_handle_codes `{TypeCodes} : list Z :=
  [kTVMObjectHandle; kTVMNDArrayHandle; kTVMOpaqueHandle; kTVMModuleHandle;
   kTVMPackedFuncHandle].

(** The objects that wrap one raw handle and no more. *)
Definition handle_kind (v : pyobj) : bool :=
  match v with
  | ObjectBase_obj _ | NDArrayBase_obj _ false | Module_obj _
  | c_void_p_obj _ | PackedFunc_obj _ _ => true
  | _ => false
  end.

(** What such an object comes back as: a function wrapper comes back as a
    local one. *)
Definition as_decoded (v : pyobj) : pyobj :=
  match v with
  | PackedFunc_obj h _ => PackedFunc_obj h 0
  | _ => v
  end.

(** ** The element count of [relax.arange]

    [InferStructInfoArange] (relax/op/tensor/create.cc), when [start],
    [end] and [step] are integers, gives the result the shape
    [floordiv(end - start + step - 1, step)].  The operands are integers
    of a fixed width: [arange_num_elem bits] is the value of that
    expression at operands of [bits] bits, every operation wrapping around
    in two's complement.  [Z.div] rounds down as [tvm::floordiv] does; a
    zero [step] has no quotient. *)
Definition in_width (bits : Z) (z : Z) : bool :=
  (- 2 ^ (bits - 1) <=? z) && (z <=? 2 ^ (bits - 1) - 1).

Definition wrap (bits : Z) (z : Z) : Z :=
  (z + 2 ^ (bits - 1)) `mod` 2 ^ bits - 2 ^ (bits - 1).

Definition arange_num_elem (bits : Z) (start end_ step : Z) : option Z :=
  let diff := wrap bits (end_ - start) in
  let sum := wrap bits (diff + step) in
  let num := wrap bits (sum - 1) in
  if step =? 0 then None else Some (wrap bits (num `div` step)).

(** * Properties *)

(** The header's numbering is well formed. *)
Lemma c_runtime_codes_wf : TypeCodesWF c_runtime_codes.
Proof.
  split.
  - apply (bool_decide_unpack _). vm_compute. reflexivity.
  - apply (bool_decide_unpack _). vm_compute. reflexivity.
Qed.

Ltac unfold_M :=
  unfold mbind, mret, M_mbind, M_mret, M_bind, M_ret, raise, fault, emit,
    modify, get_world, lift_outcome, defined in *.

Lemma code_neq `{TypeCodesWF} (i j : nat) (a b : Z) :
  reserved_codes !! i = Some a -> reserved_codes !! j = Some b ->
  i <> j -> a <> b.
Proof.
  intros Hi Hj Hij Hab. subst b. apply Hij.
  exact (NoDup_lookup _ _ _ _ codes_distinct Hi Hj).
Qed.

Lemma code_below_ext `{TypeCodesWF} (i : nat) (a : Z) :
  reserved_codes !! i = Some a -> a < kTVMExtBegin.
Proof.
  intros Hi. exact (proj1 (Forall_lookup _ _) codes_below_ext i a Hi).
Qed.

(** The position of a reserved code in [reserved_codes]. *)
Ltac code_index c :=
  lazymatch c with
  | @kInt _ => constr:(0%nat)
  | @kFloat _ => constr:(1%nat)
  | @kTVMOpaqueHandle _ => constr:(2%nat)
  | @kTVMNullptr _ => constr:(3%nat)
  | @kDLDevice _ => constr:(4%nat)
  | @kTVMDLTensorHandle _ => constr:(5%nat)
  | @kTVMObjectHandle _ => constr:(6%nat)
  | @kTVMModuleHandle _ => constr:(7%nat)
  | @kTVMPackedFuncHandle _ => constr:(8%nat)
  | @kTVMStr _ => constr:(9%nat)
  | @kTVMBytes _ => constr:(10%nat)
  | @kTVMNDArrayHandle _ => constr:(11%nat)
  | @kTVMObjectRefArg _ => constr:(12%nat)
  | @kTVMArgBool _ => constr:(13%nat)
  end.

(** Two different reserved codes are different numbers. *)
Ltac code_neq_tac :=
  lazymatch goal with
  | |- ?a <> ?b =>
      let i := code_index a in
      let j := code_index b in
      apply (code_neq i j); [reflexivity | reflexivity | discriminate]
  end.

(** A reserved code is below the extension range. *)
Ltac code_below_tac :=
  lazymatch goal with
  | |- ?a < _ =>
      let i := code_index a in
      apply (code_below_ext i); reflexivity
  end.

(** Decide the tests of one code against the others. *)
Ltac code_eqb :=
  rewrite ?Z.eqb_refl;
  repeat match goal with
  | |- context [?a =? ?b] =>
      rewrite (proj2 (Z.eqb_neq a b)) by code_neq_tac
  | |- context [kTVMExtBegin <=? ?a] =>
      rewrite (proj2 (Z.leb_gt kTVMExtBegin a)) by code_below_tac
  end;
  cbn [negb orb andb].

Section Encoder.
Context {tc : TypeCodes} {wf : TypeCodesWF tc} {ext : Extern}.

Lemma in_int64_spec z : in_int64 z = true <-> INT64_MIN <= z <= INT64_MAX.
Proof. unfold in_int64. rewrite andb_true_iff, !Z.leb_le. tauto. Qed.

Lemma make_arg_bool b temp_args w :
  make_arg (PyBool b) temp_args w
  = (Ok (V_int64 (Z.b2z b), kTVMArgBool, temp_args), w).
Proof. reflexivity. Qed.

Lemma make_arg_int z temp_args w :
  in_int64 z = true ->
  make_arg (PyInt z) temp_args w = (Ok (V_int64 z, kInt, temp_args), w).
Proof. intros Hz. unfold make_arg. simpl. unfold_M. simpl. rewrite Hz. reflexivity. Qed.

Lemma make_arg_int_overflow z temp_args w :
  in_int64 z = false ->
  make_arg (PyInt z) temp_args w
  = (Raise (mk_exc OverflowError "Python int too large to convert to C long"), w).
Proof. intros Hz. unfold make_arg. simpl. unfold_M. simpl. rewrite Hz. reflexivity. Qed.

Lemma make_ret_bool z w :
  make_ret (V_int64 z) kTVMArgBool w = (Ok (PyBool (negb (z =? 0))), w).
Proof. unfold make_ret. code_eqb. reflexivity. Qed.

Lemma make_ret_int z w : make_ret (V_int64 z) kInt w = (Ok (PyInt z), w).
Proof. unfold make_ret. code_eqb. reflexivity. Qed.

Lemma make_ret_float f w : make_ret (V_float64 f) kFloat w = (Ok (PyFloat f), w).
Proof. unfold make_ret. code_eqb. reflexivity. Qed.

Lemma make_ret_null value w : make_ret value kTVMNullptr w = (Ok PyNone, w).
Proof. unfold make_ret. code_eqb. reflexivity. Qed.

Lemma make_ret_device d w :
  make_ret (V_device d) kDLDevice w = (Ok (Device_obj (dev_type d) (dev_id d)), w).
Proof. unfold make_ret. code_eqb. reflexivity. Qed.

(** A buffer without a NUL byte is read to its end. *)
Lemma c_string_NUL_free buf :
  forallb (fun b => negb (Byte.eqb b "000"%byte)) buf = true -> c_string buf = buf.
Proof.
  induction buf as [| b rest IH]; [reflexivity |].
  simpl. intros H. apply andb_true_iff in H as [Hb Hrest].
  destruct (Byte.eqb b "000"%byte); [discriminate Hb |].
  rewrite IH by exact Hrest. reflexivity.
Qed.

Lemma py_str_c_str s :
  forallb (fun b => negb (Byte.eqb b "000"%byte)) (c_str s) = true ->
  py_str (c_str s) = s.
Proof.
  intros H. unfold py_str. rewrite c_string_NUL_free by exact H.
  apply String.string_of_list_byte_of_string.
Qed.

(** A string is read back from the buffer [encode_str] has just filled. *)
Lemma make_ret_encode_str s temp_args w :
  exists p w1,
    encode_str s kTVMStr temp_args w
    = (Ok (V_str p, kTVMStr, temp_args ++ [TempBuf p]), w1) /\
    make_ret (V_str p) kTVMStr w1 = (Ok (PyStr (py_str (c_str s))), w1).
Proof.
  eexists _, _. split; [reflexivity |].
  unfold make_ret. code_eqb.
  unfold load_bytes, load. unfold_M. simpl.
  rewrite lookup_insert_eq. reflexivity.
Qed.

(** A byte buffer is read back through the descriptor [make_arg] built. *)
Lemma make_ret_bytes_after_alloc content w :
  exists w2,
    make_ret (V_handle (Z.pos (Pos.succ (next_addr w)))) kTVMBytes
             (bytes_world content w)
    = (Ok (PyByteArray content), w2).
Proof.
  unfold make_ret. code_eqb.
  unfold make_ret_bytes, load_bytes, load, alloc. unfold_M. simpl.
  rewrite lookup_insert_eq. simpl.
  rewrite lookup_insert_ne by lia.
  rewrite lookup_insert_eq. simpl.
  assert (Hsz : (0 <=? Z.of_nat (length content))
                && (Z.of_nat (length content) <=? Z.of_nat (length content)) = true).
  { apply andb_true_iff. split; apply Z.leb_le; lia. }
  rewrite Hsz. simpl. rewrite Nat2Z.id, firstn_all.
  eexists. reflexivity.
Qed.

Lemma make_arg_bytes content temp_args w :
  make_arg (PyBytes content) temp_args w
  = (Ok (V_handle (Z.pos (Pos.succ (next_addr w))), kTVMBytes,
         (temp_args ++ [TempBuf (Z.pos (next_addr w))])
           ++ [TempBuf (Z.pos (Pos.succ (next_addr w)))]),
     bytes_world content w).
Proof. reflexivity. Qed.

Lemma make_arg_bytearray content temp_args w :
  make_arg (PyByteArray content) temp_args w
  = (Ok (V_handle (Z.pos (Pos.succ (next_addr w))), kTVMBytes,
         temp_args ++ [TempBuf (Z.pos (Pos.succ (next_addr w)))]),
     bytes_world content w).
Proof. reflexivity. Qed.

End Encoder.

Section RoundTrip.
Context {tc : TypeCodes} {wf : TypeCodesWF tc} {ext : Extern}.

(** C1 (amended). Encoding a value of a non-handle kind (Int, Float, Bool,
    Null, Str, Bytes, Device) with [make_arg] succeeds, and [make_ret]
    applied to the value and type code it produced returns an equal value,
    when an integer fits the signed 64-bit member and a string has no NUL
    character. *)
Theorem make_ret_make_arg_round_trip (v : pyobj) (temp_args : list temp) (w : World) :
  non_handle_kind v = true ->
  fits_int64 v = true ->
  NUL_free v = true ->
  exists value tcode temp_args' w1,
    make_arg v temp_args w = (Ok (value, tcode, temp_args'), w1) /\
    exists v' w2, make_ret value tcode w1 = (Ok v', w2) /\ equal_value v' v.
Proof.
  intros Hkind Hfits Htext.
  destruct v; try discriminate Hkind; simpl in Hfits, Htext.
  - (* Bool *)
    eexists _, _, _, _. split; [apply make_arg_bool |].
    eexists _, _. split; [apply make_ret_bool |].
    destruct b; constructor.
  - (* Int *)
    eexists _, _, _, _. split; [apply make_arg_int, Hfits |].
    eexists _, _. split; [apply make_ret_int | constructor].
  - (* Float *)
    eexists _, _, _, _. split; [reflexivity |].
    eexists _, _. split; [apply make_ret_float | constructor].
  - (* Str *)
    destruct (make_ret_encode_str s temp_args w) as (p & w1 & Henc & Hdec).
    eexists _, _, _, _. split; [exact Henc |].
    eexists _, _. split; [exact Hdec |].
    rewrite (py_str_c_str s Htext). constructor.
  - (* Null *)
    eexists _, _, _, _. split; [reflexivity |].
    eexists _, _. split; [apply make_ret_null | constructor].
  - (* Device *)
    eexists _, _, _, _. split; [reflexivity |].
    eexists _, _. split; [apply make_ret_device | constructor].
  - (* Bytes *)
    destruct (make_ret_bytes_after_alloc content w) as (w2 & Hdec).
    eexists _, _, _, _. split; [apply make_arg_bytes |].
    eexists _, _. split; [exact Hdec | constructor].
  - (* ByteArray *)
    destruct (make_ret_bytes_after_alloc content w) as (w2 & Hdec).
    eexists _, _, _, _. split; [apply make_arg_bytearray |].
    eexists _, _. split; [exact Hdec | constructor].
Qed.

End RoundTrip.


Section Classification.
Context {tc : TypeCodes} {wf : TypeCodesWF tc} {ext : Extern}.

(** C2 (amended). A Python bool, although an [Integral], is given the code
    [kTVMArgBool], which is not [kInt]; a non-bool integral argument that
    fits a signed 64-bit integer is given [kInt]; a value tagged
    [kTVMArgBool] decodes to a bool. *)
Theorem make_arg_bool_before_integral (b : bool) (z : Z) (value : TVMValue)
    (temp_args : list temp) (w : World) :
  (isinstance (PyBool b) Integral = true /\
   make_arg (PyBool b) temp_args w
   = (Ok (V_int64 (Z.b2z b), kTVMArgBool, temp_args), w) /\
   kTVMArgBool <> kInt) /\
  (in_int64 z = true ->
   make_arg (PyInt z) temp_args w = (Ok (V_int64 z, kInt, temp_args), w)) /\
  make_ret (V_int64 z) kTVMArgBool w = (Ok (PyBool (negb (z =? 0))), w) /\
  (forall o w', make_ret value kTVMArgBool w = (Ok o, w') ->
                exists b', o = PyBool b').
Proof.
  repeat split.
  - code_neq_tac.
  - apply make_arg_int.
  - apply make_ret_bool.
  - intros o w'. unfold make_ret. code_eqb.
    destruct value; unfold_M; simpl; intros H; inversion H; eauto.
Qed.

End Classification.

Section Invoker.
Context {tc : TypeCodes} {ext : Extern}.

Lemma encode_args_length args : forall temp_args w values tcodes temp_args' w',
  encode_args args temp_args w = (Ok (values, tcodes, temp_args'), w') ->
  length values = length args /\ length tcodes = length args.
Proof.
  induction args as [| arg rest IH]; intros temp_args w values tcodes temp_args' w'.
  - intros H. inversion H. auto.
  - simpl. unfold_M. unfold on_raise.
    destruct (make_arg arg temp_args w) as [[[[v t] temps1] | e |] w1];
      try discriminate.
    destruct (encode_args rest temps1 w1) as [[[[vs ts] temps2] | e |] w2] eqn:E;
      try discriminate.
    intros H. inversion H; subst. apply IH in E. simpl. lia.
Qed.

(** The loop over the buffers writes, from slot [i] on, the list that
    [encode_args] returns, and touches no other slot. *)
Lemma pack_args_encode args : forall i values tcodes temp_args w,
  (i + length args <= length values)%nat ->
  (i + length args <= length tcodes)%nat ->
  pack_args args i values tcodes temp_args w =
  match encode_args args temp_args w with
  | (Ok (vs, ts, temp_args'), w') =>
      (Ok (take i values ++ vs ++ drop (i + length args) values,
           take i tcodes ++ ts ++ drop (i + length args) tcodes,
           temp_args'), w')
  | (Raise e, w') => (Raise e, w')
  | (Fault, w') => (Fault, w')
  end.
Proof.
  induction args as [| arg rest IH]; intros i values tcodes temp_args w Hv Ht.
  - simpl. unfold_M. rewrite Nat.add_0_r, !take_drop. reflexivity.
  - simpl in *. unfold_M. unfold on_raise.
    destruct (make_arg arg temp_args w) as [[[[v t] temps1] | e |] w1];
      try reflexivity.
    unfold store. rewrite !decide_True by lia. unfold_M.
    rewrite IH by (rewrite length_insert; lia).
    destruct (encode_args rest temps1 w1) as [[[[vs ts] temps2] | e |] w2];
      try reflexivity.
    destruct (lookup_lt_is_Some_2 values i) as [x Hx]; [lia |].
    destruct (lookup_lt_is_Some_2 tcodes i) as [y Hy]; [lia |].
    rewrite (take_S_r (<[i:=v]> values) i v)
      by (apply list_lookup_insert_eq; lia).
    rewrite (take_S_r (<[i:=t]> tcodes) i t)
      by (apply list_lookup_insert_eq; lia).
    rewrite !take_insert_ge by lia.
    rewrite !drop_insert_lt by lia.
    rewrite <- !app_assoc. simpl.
    replace (S (i + length rest)) with (i + S (length rest))%nat by lia.
    reflexivity.
Qed.

Lemma FuncCall3_eq_spec chandle args nargs w :
  (length args <= 3)%nat ->
  FuncCall3 chandle args nargs w = FuncCall_spec chandle args w.
Proof.
  intros Hlen. unfold FuncCall3, FuncCall_spec, as_int. unfold_M.
  destruct (in_int (Z.of_nat (length args))); [| reflexivity].
  rewrite pack_args_encode by (rewrite length_replicate; lia).
  destruct (encode_args args [] w) as [[[[vs ts] temps] | e |] w1] eqn:E;
    try reflexivity.
  apply encode_args_length in E as [Hvs Hts].
  simpl. rewrite Nat2Z.id.
  rewrite (take_app_length' vs) by lia.
  rewrite (take_app_length' ts) by lia.
  reflexivity.
Qed.

(** The vector path is the call of the spec once the two vectors have
    taken their storage. *)
Lemma FuncCall_vector_eq_spec chandle args w :
  in_int (Z.of_nat (length args)) = true ->
  FuncCall_vector chandle args (Z.of_nat (length args)) w
  = FuncCall_spec chandle args
      (log (Ev_vector_resize (Z.max (Z.of_nat (length args)) 1))
         (log (Ev_vector_resize (Z.max (Z.of_nat (length args)) 1)) w)).
Proof.
  intros Hint. unfold FuncCall_vector, FuncCall_spec, as_int. unfold_M.
  rewrite Hint.
  rewrite pack_args_encode by (rewrite length_replicate; lia).
  match goal with
  | |- context [encode_args args [] ?w0] =>
      destruct (encode_args args [] w0) as [[[[vs ts] temps] | e |] w1] eqn:E
  end; try reflexivity.
  apply encode_args_length in E as [Hvs Hts].
  simpl. rewrite Nat2Z.id.
  rewrite (take_app_length' vs) by lia.
  rewrite (take_app_length' ts) by lia.
  reflexivity.
Qed.

Lemma as_int_small n w : (n <= 3)%nat -> as_int (Z.of_nat n) w = (Ok (Z.of_nat n), w).
Proof.
  intros Hn. unfold as_int.
  assert (H : in_int (Z.of_nat n) = true).
  { unfold in_int, INT_MIN, INT_MAX. apply andb_true_iff. split; apply Z.leb_le; lia. }
  rewrite H. reflexivity.
Qed.

Lemma FuncCall_small chandle args w :
  (length args <= 3)%nat ->
  FuncCall chandle args w = FuncCall3 chandle args (Z.of_nat (length args)) w.
Proof.
  intros Hlen. unfold FuncCall. unfold_M. rewrite as_int_small by done.
  rewrite (proj2 (Z.leb_le _ _)) by lia. reflexivity.
Qed.

Lemma FuncCall_large chandle args w :
  (4 <= length args)%nat ->
  FuncCall chandle args w = FuncCall_general chandle args w.
Proof.
  intros Hlen. unfold FuncCall, FuncCall_general, as_int. unfold_M.
  destruct (in_int (Z.of_nat (length args))); [| reflexivity].
  rewrite (proj2 (Z.leb_gt _ _)) by lia. reflexivity.
Qed.

Lemma vector_storage_small args w :
  (length args <= 3)%nat -> vector_storage args w = w.
Proof.
  intros Hlen. unfold vector_storage.
  rewrite (proj2 (Z.leb_le (Z.of_nat (length args)) 3)) by lia.
  rewrite andb_false_r. reflexivity.
Qed.

Lemma vector_storage_large args w :
  (4 <= length args)%nat -> in_int (Z.of_nat (length args)) = true ->
  vector_storage args w
  = log (Ev_vector_resize (Z.of_nat (length args)))
        (log (Ev_vector_resize (Z.of_nat (length args))) w).
Proof.
  intros Hlen Hint. unfold vector_storage.
  rewrite Hint, (proj2 (Z.leb_gt (Z.of_nat (length args)) 3)) by lia.
  reflexivity.
Qed.

(** Either path is the call of the spec, started once the vectors of the
    general path have their storage. *)
Lemma FuncCall_eq_spec chandle args w :
  FuncCall chandle args w = FuncCall_spec chandle args (vector_storage args w).
Proof.
  destruct (le_lt_dec (length args) 3) as [Hs | Hl].
  - rewrite FuncCall_small, vector_storage_small by done.
    apply FuncCall3_eq_spec, Hs.
  - rewrite FuncCall_large by lia. unfold FuncCall_general.
    destruct (in_int (Z.of_nat (length args))) eqn:Hint.
    + rewrite vector_storage_large by (done || lia).
      unfold as_int. rewrite Hint. unfold_M.
      rewrite FuncCall_vector_eq_spec by exact Hint.
      rewrite Z.max_l by lia. reflexivity.
    + unfold vector_storage. rewrite Hint. simpl.
      unfold FuncCall_spec, as_int. rewrite Hint. reflexivity.
Qed.

End Invoker.

(** ** What a computation leaves unchanged *)

Lemma preserves_ret {A} P (a : A) :
  (forall w, P w w) -> preserves P (mret a).
Proof. intros HP w o w' H. inversion H. apply HP. Qed.

Lemma preserves_pure {A} P (o : outcome A) :
  (forall w, P w w) -> preserves P (fun w => (o, w)).
Proof. intros HP w o' w' H. inversion H. apply HP. Qed.

Lemma preserves_bind {A B} P (m : M A) (k : A -> M B) :
  (forall w1 w2 w3, P w1 w2 -> P w2 w3 -> P w1 w3) ->
  preserves P m -> (forall a, preserves P (k a)) -> preserves P (m ≫= k).
Proof.
  intros Htrans Hm Hk w o w'. unfold_M.
  destruct (m w) as [[a | e |] w1] eqn:E; intros H.
  - eapply Htrans; [eapply Hm, E | eapply Hk, H].
  - inversion H; subst. eapply Hm, E.
  - inversion H; subst. eapply Hm, E.
Qed.

Lemma heap_only_refl w : heap_only w w.
Proof. repeat split. Qed.

Lemma heap_only_trans w1 w2 w3 : heap_only w1 w2 -> heap_only w2 w3 -> heap_only w1 w3.
Proof. unfold heap_only. intros (? & ? & ? & ? & ?) (? & ? & ? & ? & ?). repeat split; congruence. Qed.




Lemma logged_only_refl ok w : logged_only ok w w.
Proof. exists []. rewrite app_nil_r. split; [reflexivity | constructor]. Qed.

Lemma logged_only_trans ok w1 w2 w3 :
  logged_only ok w1 w2 -> logged_only ok w2 w3 -> logged_only ok w1 w3.
Proof.
  intros (e1 & H1 & F1) (e2 & H2 & F2). exists (e1 ++ e2). split.
  - rewrite H2, H1, app_assoc. reflexivity.
  - apply Forall_app. split; assumption.
Qed.

Lemma heap_only_logged_only ok w w' : heap_only w w' -> logged_only ok w w'.
Proof.
  intros (Ht & _). exists []. rewrite app_nil_r. split; [exact Ht | constructor].
Qed.

Lemma preserves_weaken {A} (P Q : World -> World -> Prop) (m : M A) :
  (forall w w', P w w' -> Q w w') -> preserves P m -> preserves Q m.
Proof. intros HPQ Hm w o w' H. eapply HPQ, Hm, H. Qed.

Lemma preserves_defined {A} P (o : option A) :
  (forall w, P w w) -> preserves P (defined o).
Proof. intros HP. destruct o; apply preserves_pure, HP. Qed.

Lemma alloc_heap_only c : preserves heap_only (alloc c).
Proof. intros w o w' H. inversion H. repeat split. Qed.

Lemma load_heap_only a : preserves heap_only (load a).
Proof.
  intros w o w'. unfold load. destruct (heap w !! a); intros H; inversion H;
    apply heap_only_refl.
Qed.

(** Steps through the structure of a computation. *)
Ltac preserves_step HR HT :=
  first
    [ apply preserves_ret; exact HR
    | apply preserves_pure; exact HR
    | apply preserves_defined; exact HR
    | apply alloc_heap_only
    | apply load_heap_only
    | apply preserves_bind; [exact HT | | intros ?]
    | match goal with
      | x : (_ * _)%type |- _ => destruct x
      | |- preserves _ (if ?b then _ else _) => destruct b
      | |- preserves _ (match ?o with _ => _ end) => destruct o
      end ].

Section Decoder.
Context {tc : TypeCodes} {ext : Extern}.

Lemma load_bytes_heap_only p : preserves heap_only (load_bytes p).
Proof.
  unfold load_bytes, raise, fault.
  repeat preserves_step heap_only_refl heap_only_trans.
Qed.

Lemma make_ret_bytes_heap_only chandle : preserves heap_only (make_ret_bytes chandle).
Proof.
  unfold make_ret_bytes, raise, fault.
  repeat first [apply load_bytes_heap_only
               | preserves_step heap_only_refl heap_only_trans].
Qed.

(** Decoding logs no call; it only allocates the buffer of a bytearray. *)
Lemma make_ret_heap_only value tcode : preserves heap_only (make_ret value tcode).
Proof.
  unfold make_ret, raise, fault.
  repeat first [apply load_bytes_heap_only | apply make_ret_bytes_heap_only
               | preserves_step heap_only_refl heap_only_trans].
Qed.

Lemma decode_callback_arg_heap_only value tcode :
  preserves heap_only (decode_callback_arg value tcode).
Proof.
  unfold decode_callback_arg, fault.
  repeat first [apply make_ret_heap_only
               | preserves_step heap_only_refl heap_only_trans].
Qed.

End Decoder.

Section Trampoline.
Context {tc : TypeCodes} {wf : TypeCodesWF tc} {ext : Extern}.



Lemma callback_arg_unfold value tcode w :
  callback_arg value tcode w =
  (if needs_arg_to_return tcode then
     '(status, value', tcode') ← TVMCbArgToReturn value tcode;
     CHECK_CALL status ;;
     decode_callback_arg value' tcode'
   else decode_callback_arg value tcode) w.
Proof.
  unfold callback_arg, decode_callback_arg, TVMCbArgToReturn, CHECK_CALL.
  destruct (needs_arg_to_return tcode); [| reflexivity].
  unfold_M. simpl.
  destruct (native_TVMCbArgToReturn value tcode) as [[status value'] tcode'].
  destruct (status =? 0); reflexivity.
Qed.

Lemma callback_arg_trace value tcode w o w' :
  callback_arg value tcode w = (o, w') ->
  trace w' = trace w ++ (if needs_arg_to_return tcode
                         then [Ev_TVMCbArgToReturn value tcode] else []).
Proof.
  rewrite callback_arg_unfold.
  destruct (needs_arg_to_return tcode).
  - unfold TVMCbArgToReturn, CHECK_CALL. unfold_M. simpl.
    destruct (native_TVMCbArgToReturn value tcode) as [[status value'] tcode'].
    destruct (status =? 0).
    + intros H. apply decode_callback_arg_heap_only in H as [Ht _].
      rewrite Ht. reflexivity.
    + intros H. inversion H. reflexivity.
  - intros H. apply decode_callback_arg_heap_only in H as [Ht _].
    rewrite Ht, app_nil_r. reflexivity.
Qed.






End Trampoline.

Section TrampolineCall.
Context {tc : TypeCodes} {ext : Extern}.



(** C8 (amended). [ConstructorCall] performs the call and, when
    assertions are enabled, compares the returned type code with the
    expected one.  When they agree it returns the raw handle of the
    result; when they differ it raises a bare [AssertionError], whose
    message is empty, and returns no handle.  When assertions are disabled
    the comparison is not made and the raw handle is returned whatever its
    code. *)
Theorem ConstructorCall_checks_type_code (constructor_handle type_code : Z)
    (args : list pyobj) (ret_val : TVMValue) (ret_tcode : Z) (w w' : World) :
  FuncCall constructor_handle args w = (Ok (ret_val, ret_tcode), w') ->
  (ret_tcode = type_code ->
   forall handle, v_handle ret_val = Some handle ->
     ConstructorCall constructor_handle type_code args w = (Ok handle, w')) /\
  (ret_tcode <> type_code -> assertions_enabled = true ->
   ConstructorCall constructor_handle type_code args w
   = (Raise (mk_exc AssertionError ""), w')) /\
  (ret_tcode <> type_code -> assertions_enabled = false ->
   forall handle, v_handle ret_val = Some handle ->
     ConstructorCall constructor_handle type_code args w = (Ok handle, w')).
Proof.
  intros Hcall. split; [| split].
  - intros -> handle Hh. unfold ConstructorCall. unfold_M.
    rewrite Hcall, Z.eqb_refl, andb_false_r, Hh. reflexivity.
  - intros Hne Hon. unfold ConstructorCall. unfold_M.
    rewrite Hcall, Hon, (proj2 (Z.eqb_neq _ _) Hne). reflexivity.
  - intros Hne Hoff handle Hh. unfold ConstructorCall. unfold_M.
    rewrite Hcall, Hoff, Hh. reflexivity.
Qed.

End TrampolineCall.

Section Lifetime.
Context {tc : TypeCodes} {ext : Extern}.

Lemma convert_to_tvm_func_run p w :
  let status := (native_TVMFuncCreateFromCFunc p).1 in
  let chandle := (native_TVMFuncCreateFromCFunc p).2 in
  let cl := mk_closure Cb_tvm_callback p Fin_tvm_callback_finalize in
  exists o w1,
    convert_to_tvm_func (PyCallable p) w = (o, w1) /\
    trace w1 = trace w ++ [Ev_Py_INCREF p;
                           Ev_TVMFuncCreateFromCFunc Cb_tvm_callback p
                             Fin_tvm_callback_finalize] /\
    refcnt w1 = <[p := refcount w p + 1]> (refcnt w) /\
    (status = 0 ->
     o = Ok (PackedFunc_obj chandle 0) /\
     native_funcs w1 = <[chandle := cl]> (native_funcs w)) /\
    (status <> 0 -> o = Raise (mk_exc TVMError native_last_error)).
Proof.
  intros status chandle cl. subst status chandle.
  unfold convert_to_tvm_func, Py_INCREF, TVMFuncCreateFromCFunc, CHECK_CALL.
  unfold_M. simpl.
  destruct (native_TVMFuncCreateFromCFunc p) as [status chandle]. simpl.
  destruct (status =? 0) eqn:E; simpl; rewrite ?E; simpl.
  - eexists _, _. split; [reflexivity |]. simpl.
    rewrite <- app_assoc. split; [reflexivity |]. split; [reflexivity |].
    split; [intros _; split; reflexivity |].
    intros Hne. apply Z.eqb_eq in E. contradiction.
  - eexists _, _. split; [reflexivity |]. simpl.
    rewrite <- app_assoc. split; [reflexivity |]. split; [reflexivity |].
    split; [| reflexivity].
    intros ->. discriminate E.
Qed.

Lemma tvm_callback_finalize_run p w :
  tvm_callback_finalize p w
  = (Ok tt, set_refcnt (<[p := refcount w p - 1]> (refcnt w)) (log (Ev_Py_DECREF p) w)).
Proof. reflexivity. Qed.

Lemma refcount_insert (r : gmap Z Z) p n w :
  refcnt w = <[p := n]> r -> refcount w p = n.
Proof. intros H. unfold refcount. rewrite H, lookup_insert_eq. reflexivity. Qed.

(** C9. [convert_to_tvm_func] takes one reference on the callable and
    hands [tvm_callback_finalize] to the creation primitive; the finalizer
    releases one reference; deallocating a wrapper calls the free primitive
    when [is_global] is 0 and calls nothing otherwise; wrapping and then
    deallocating the wrapper leaves the callable's count as it was. *)
Theorem wrap_release_balance (p chandle is_global : Z) (w : World) :
  (exists o w1,
     convert_to_tvm_func (PyCallable p) w = (o, w1) /\
     trace w1 = trace w ++ [Ev_Py_INCREF p;
                            Ev_TVMFuncCreateFromCFunc Cb_tvm_callback p
                              Fin_tvm_callback_finalize] /\
     refcount w1 p = refcount w p + 1) /\
  (exists w1,
     tvm_callback_finalize p w = (Ok tt, w1) /\
     trace w1 = trace w ++ [Ev_Py_DECREF p] /\
     refcount w1 p = refcount w p - 1) /\
  (is_global <> 0 ->
   PackedFuncBase_dealloc (PackedFunc_obj chandle is_global) w = (Ok tt, w)) /\
  (is_global = 0 ->
   exists o w1 evs,
     PackedFuncBase_dealloc (PackedFunc_obj chandle is_global) w = (o, w1) /\
     trace w1 = trace w ++ Ev_TVMFuncFree chandle :: evs /\
     (evs = [] \/ exists r, evs = [Ev_Py_DECREF r])) /\
  ((native_TVMFuncCreateFromCFunc p).1 = 0 ->
   native_TVMFuncFree (native_TVMFuncCreateFromCFunc p).2 = 0 ->
   exists wrapper w1 w2,
     convert_to_tvm_func (PyCallable p) w = (Ok wrapper, w1) /\
     PackedFuncBase_is_global wrapper = Some 0 /\
     PackedFuncBase_dealloc wrapper w1 = (Ok tt, w2) /\
     refcount w2 p = refcount w p /\
     trace w2 = trace w ++ [Ev_Py_INCREF p;
                            Ev_TVMFuncCreateFromCFunc Cb_tvm_callback p
                              Fin_tvm_callback_finalize;
                            Ev_TVMFuncFree (native_TVMFuncCreateFromCFunc p).2;
                            Ev_Py_DECREF p]).
Proof.
  split; [| split; [| split; [| split]]].
  - destruct (convert_to_tvm_func_run p w) as (o & w1 & Hrun & Htr & Hrc & _).
    exists o, w1. split; [exact Hrun |]. split; [exact Htr |].
    eapply refcount_insert, Hrc.
  - eexists. split; [apply tvm_callback_finalize_run |].
    split; [reflexivity |]. unfold refcount at 1. simpl.
    rewrite lookup_insert_eq. reflexivity.
  - intros Hg. unfold PackedFuncBase_dealloc. unfold_M. simpl.
    rewrite (proj2 (Z.eqb_neq _ _) Hg). reflexivity.
  - intros ->. unfold PackedFuncBase_dealloc, TVMFuncFree, CHECK_CALL.
    unfold_M. simpl.
    destruct (native_TVMFuncFree chandle =? 0) eqn:E; simpl.
    + destruct (native_funcs w !! chandle) as [[f r fin] |]; simpl; rewrite ?E.
      * destruct fin. simpl. rewrite ?E. eexists _, _, _. split; [reflexivity |].
        simpl. rewrite <- app_assoc. split; [reflexivity |]. right. eauto.
      * eexists _, _, _. split; [reflexivity |]. simpl. split; [reflexivity |].
        left. reflexivity.
    + rewrite ?E. eexists _, _, _. split; [reflexivity |]. simpl.
      split; [reflexivity |]. left. reflexivity.
  - intros Hcreate Hfree.
    destruct (convert_to_tvm_func_run p w)
      as (o & w1 & Hrun & Htr & Hrc & Hok & _).
    destruct (Hok Hcreate) as [-> Hnf].
    exists (PackedFunc_obj (native_TVMFuncCreateFromCFunc p).2 0), w1.
    assert (Hd : exists w2,
      PackedFuncBase_dealloc
        (PackedFunc_obj (native_TVMFuncCreateFromCFunc p).2 0) w1 = (Ok tt, w2) /\
      refcnt w2 = <[p := refcount w1 p - 1]> (refcnt w1) /\
      trace w2 = trace w1 ++ [Ev_TVMFuncFree (native_TVMFuncCreateFromCFunc p).2;
                              Ev_Py_DECREF p]).
    { unfold PackedFuncBase_dealloc, TVMFuncFree, CHECK_CALL. unfold_M. simpl.
      rewrite Hfree. simpl. rewrite Hnf, lookup_insert_eq. simpl.
      rewrite ?Hfree. simpl.
      eexists. split; [reflexivity |]. simpl.
      rewrite <- app_assoc. split; reflexivity. }
    destruct Hd as (w2 & Hd & Hrc2 & Htr2).
    exists w2. split; [exact Hrun |]. split; [reflexivity |].
    split; [exact Hd |]. split.
    + rewrite (refcount_insert _ _ _ _ Hrc2), (refcount_insert _ _ _ _ Hrc). lia.
    + rewrite Htr2, Htr, <- !app_assoc. reflexivity.
Qed.

End Lifetime.

(** ** What a computation logs *)

Section Logged.
Context {tc : TypeCodes} {ext : Extern}.

Lemma logged_only_mono (ok ok' : event -> bool) w w' :
  (forall ev, ok ev = true -> ok' ev = true) ->
  logged_only ok w w' -> logged_only ok' w w'.
Proof.
  intros Hok (evs & Htr & Hev). exists evs. split; [exact Htr |].
  eapply Forall_impl; [exact Hev | exact Hok].
Qed.

Lemma emit_logged (ok : event -> bool) ev :
  ok ev = true -> preserves (logged_only ok) (emit ev).
Proof.
  intros Hok w o w' H. inversion H; subst.
  exists [ev]. split; [reflexivity | repeat constructor; exact Hok].
Qed.

Lemma modify_logged (ok : event -> bool) f :
  (forall w, trace (f w) = trace w) -> preserves (logged_only ok) (modify f).
Proof.
  intros Hf w o w' H. inversion H; subst.
  exists []. rewrite app_nil_r. split; [apply Hf | constructor].
Qed.

Lemma get_world_logged (ok : event -> bool) : preserves (logged_only ok) get_world.
Proof. intros w o w' H. inversion H; subst. apply logged_only_refl. Qed.

Lemma preserves_unraisable P (m : M unit) :
  preserves P m -> preserves P (unraisable m).
Proof.
  intros Hm w o w' H. unfold unraisable in H. inversion H; subst.
  eapply Hm, surjective_pairing.
Qed.

Lemma preserves_on_raise {A} (P : World -> World -> Prop) (cleanup : M unit)
    (m : M A) :
  (forall w1 w2 w3, P w1 w2 -> P w2 w3 -> P w1 w3) ->
  preserves P m -> preserves P cleanup -> preserves P (on_raise cleanup m).
Proof.
  intros HT Hm Hc w o w'. unfold on_raise.
  destruct (m w) as [[a | e |] w1] eqn:E; intros H; inversion H; subst.
  - eapply Hm, E.
  - eapply HT; [eapply Hm, E |]. eapply Hc, surjective_pairing.
  - eapply Hm, E.
Qed.

Lemma preserves_on_exit {A} (P : World -> World -> Prop) (cleanup : M unit)
    (m : M A) :
  (forall w1 w2 w3, P w1 w2 -> P w2 w3 -> P w1 w3) ->
  preserves P m -> preserves P cleanup -> preserves P (on_exit cleanup m).
Proof.
  intros HT Hm Hc w o w'. unfold on_exit.
  destruct (m w) as [o1 w1] eqn:E. intros H; inversion H; subst.
  eapply HT; [eapply Hm, E |]. eapply Hc, surjective_pairing.
Qed.

(** Deallocating a wrapper logs the free primitive and what the
    finalizer does. *)
Lemma PackedFuncBase_dealloc_logged self :
  preserves (logged_only release_event) (PackedFuncBase_dealloc self).
Proof.
  unfold PackedFuncBase_dealloc, TVMFuncFree, run_finalizer,
    tvm_callback_finalize, Py_DECREF, CHECK_CALL, raise.
  repeat first
    [ apply emit_logged; reflexivity
    | apply modify_logged; reflexivity
    | apply get_world_logged
    | preserves_step (logged_only_refl release_event)
                     (logged_only_trans release_event) ].
Qed.

Lemma release_temp_logged t :
  preserves (logged_only release_event) (release_temp t).
Proof.
  destruct t as [addr | o]; simpl.
  - apply modify_logged. reflexivity.
  - destruct (isinstance o PackedFuncBase).
    + apply preserves_unraisable, PackedFuncBase_dealloc_logged.
    + apply emit_logged. reflexivity.
Qed.

Lemma release_all_logged temps :
  preserves (logged_only release_event) (release_all temps).
Proof.
  induction temps as [| t rest IH]; simpl.
  - apply preserves_ret, logged_only_refl.
  - apply preserves_bind; [apply logged_only_trans | apply release_temp_logged |].
    intros _. exact IH.
Qed.

(** Letting [temp_args] go logs releases only. *)
Lemma release_temp_args_logged ok temp_args :
  (forall ev, release_event ev = true -> ok ev = true) ->
  preserves (logged_only ok) (release_temp_args temp_args).
Proof.
  intros Hok. eapply preserves_weaken; [| apply release_all_logged].
  intros w w'. apply logged_only_mono, Hok.
Qed.

Lemma convert_to_tvm_func_logged_gen ok pyfunc :
  (forall ev, encoding_event ev = true -> ok ev = true) ->
  preserves (logged_only ok) (convert_to_tvm_func pyfunc).
Proof.
  intros Hok w o w'. destruct pyfunc;
    try (intros H; inversion H; apply logged_only_refl).
  intros Hrun.
  destruct (convert_to_tvm_func_run id w) as (o1 & w1 & Hrun1 & Htr & _).
  rewrite Hrun in Hrun1. inversion Hrun1; subst.
  eexists. split; [exact Htr |]. repeat constructor; apply Hok; reflexivity.
Qed.

Lemma alloc_logged ok c : preserves (logged_only ok) (alloc c).
Proof.
  eapply preserves_weaken; [apply heap_only_logged_only | apply alloc_heap_only].
Qed.

(** Encoding an argument logs only the wrapping of a callable. *)
Lemma make_arg_logged_gen ok arg temp_args :
  (forall ev, encoding_event ev = true -> ok ev = true) ->
  preserves (logged_only ok) (make_arg arg temp_args).
Proof.
  intros Hok.
  unfold make_arg, encode_str, as_int64, as_double, as_uint64, as_int,
    raise, fault, lift_outcome.
  repeat first
    [ apply convert_to_tvm_func_logged_gen; assumption
    | apply alloc_logged
    | preserves_step (logged_only_refl ok) (logged_only_trans ok) ].
Qed.

Lemma encode_args_logged_gen ok args : forall temp_args,
  (forall ev, encoding_event ev = true -> ok ev = true) ->
  (forall ev, release_event ev = true -> ok ev = true) ->
  preserves (logged_only ok) (encode_args args temp_args).
Proof.
  induction args as [| arg rest IH]; intros temp_args Henc Hrel; simpl.
  - apply preserves_ret, logged_only_refl.
  - repeat first
      [ apply preserves_on_raise;
        [ apply logged_only_trans
        | apply make_arg_logged_gen; assumption
        | apply release_temp_args_logged; assumption ]
      | apply IH; assumption
      | preserves_step (logged_only_refl ok) (logged_only_trans ok) ].
Qed.

(** The storage of the vectors is all that precedes the call of the spec. *)
Lemma vector_storage_logged (ok : event -> bool) args w :
  (forall n, ok (Ev_vector_resize n) = true) ->
  logged_only ok w (vector_storage args w).
Proof.
  intros Hok. unfold vector_storage.
  destruct (in_int (Z.of_nat (length args))
            && negb (Z.of_nat (length args) <=? 3));
    [| apply logged_only_refl].
  eexists [_; _]. simpl. rewrite <- app_assoc.
  split; [reflexivity | repeat constructor; apply Hok].
Qed.

(** The call of the spec takes no storage for a vector. *)
Lemma FuncCall_spec_logged chandle args :
  preserves (logged_only not_vector_resize) (FuncCall_spec chandle args).
Proof.
  unfold FuncCall_spec, as_int, TVMFuncCall, CHECK_CALL, raise.
  repeat first
    [ apply encode_args_logged_gen;
      intros ev Hev; destruct ev; (reflexivity || discriminate Hev)
    | apply preserves_on_exit;
      [ apply logged_only_trans | |
        apply release_temp_args_logged;
        intros ev Hev; destruct ev; (reflexivity || discriminate Hev) ]
    | apply emit_logged; reflexivity
    | preserves_step (logged_only_refl not_vector_resize)
                     (logged_only_trans not_vector_resize) ].
Qed.

(** C3. [FuncCall] takes the 3-slot path [FuncCall3] for at most 3
    arguments, which takes no storage for a vector, and the vector path
    for 4 or more, which starts by taking the storage of its two vectors.
    Either path is the call the spec describes: every argument encoded
    with [make_arg] in order, one [TVMFuncCall] on those values, type
    codes and count, the same result and the same final world. *)
Theorem FuncCall_paths (chandle : Z) (args : list pyobj) (nargs : Z) (w : World) :
  ((length args <= 3)%nat ->
   FuncCall chandle args w = FuncCall3 chandle args (Z.of_nat (length args)) w /\
   FuncCall3 chandle args nargs w = FuncCall_spec chandle args w /\
   logged_only not_vector_resize w (FuncCall chandle args w).2) /\
  ((4 <= length args)%nat ->
   FuncCall chandle args w = FuncCall_general chandle args w /\
   (in_int (Z.of_nat (length args)) = true ->
    let storage := Ev_vector_resize (Z.of_nat (length args)) in
    FuncCall chandle args w
    = FuncCall_spec chandle args (log storage (log storage w)) /\
    exists evs,
      trace (FuncCall chandle args w).2 = trace w ++ storage :: storage :: evs /\
      Forall (fun ev => not_vector_resize ev = true) evs)) /\
  FuncCall chandle args w = FuncCall_spec chandle args (vector_storage args w).
Proof.
  split; [| split; [| apply FuncCall_eq_spec]].
  - intros Hlen. split; [apply FuncCall_small, Hlen |].
    split; [apply FuncCall3_eq_spec, Hlen |].
    rewrite FuncCall_eq_spec, vector_storage_small by exact Hlen.
    eapply FuncCall_spec_logged, surjective_pairing.
  - intros Hlen. split; [apply FuncCall_large, Hlen |].
    intros Hint storage.
    rewrite FuncCall_eq_spec, vector_storage_large by assumption.
    split; [reflexivity |].
    destruct (FuncCall_spec_logged chandle args
                (log (Ev_vector_resize (Z.of_nat (length args)))
                   (log (Ev_vector_resize (Z.of_nat (length args))) w))
                _ _ (surjective_pairing _))
      as (evs & Htr & Hev).
    exists evs. split; [| exact Hev].
    rewrite Htr. simpl. rewrite <- !app_assoc. reflexivity.
Qed.

End Logged.

Section Overflow.
Context {tc : TypeCodes} {ext : Extern}.

Lemma encode_args_logged args temp_args :
  preserves (logged_only not_TVMFuncCall) (encode_args args temp_args).
Proof.
  apply encode_args_logged_gen;
    intros ev Hev; destruct ev; (reflexivity || discriminate Hev).
Qed.

(** With an integer that does not fit among the arguments, the encoding of
    the argument list does not complete. *)
Lemma encode_args_overflow z args : forall temp_args w r w',
  in_int64 z = false -> PyInt z ∈ args ->
  encode_args args temp_args w <> (Ok r, w').
Proof.
  induction args as [| arg rest IH]; intros temp_args w r w' Hz Hin.
  - apply elem_of_nil in Hin. contradiction.
  - simpl. unfold_M. apply elem_of_cons in Hin as [<- | Hin].
    + unfold on_raise.
      rewrite (make_arg_int_overflow z temp_args w Hz). discriminate.
    + unfold on_raise.
      destruct (make_arg arg temp_args w) as [[[[v t] temps1] | e |] w1];
        try discriminate.
      destruct (encode_args rest temps1 w1) as [[[[vs ts] temps2] | e |] w2] eqn:E;
        try discriminate.
      exfalso. exact (IH _ _ _ _ Hz Hin E).
Qed.

(** C10. [make_arg] stores an integral argument in the int64 member: a
    bool as 0 or 1, an integer that fits as itself.  An integer outside
    the signed 64-bit range makes [make_arg] raise [OverflowError] with the
    world untouched, and a call with such an argument ends without a
    result and without any [TVMFuncCall]. *)
Theorem make_arg_int64_range (z : Z) (b : bool) (chandle : Z)
    (args : list pyobj) (temp_args : list temp) (w : World) :
  (in_int64 z = true ->
   make_arg (PyInt z) temp_args w = (Ok (V_int64 z, kInt, temp_args), w)) /\
  make_arg (PyBool b) temp_args w
  = (Ok (V_int64 (Z.b2z b), kTVMArgBool, temp_args), w) /\
  (in_int64 z = false ->
   make_arg (PyInt z) temp_args w
   = (Raise (mk_exc OverflowError "Python int too large to convert to C long"), w) /\
   (PyInt z ∈ args ->
    exists o w',
      FuncCall chandle args w = (o, w') /\
      (forall r, o <> Ok r) /\
      logged_only not_TVMFuncCall w w')).
Proof.
  split; [apply make_arg_int |]. split; [apply make_arg_bool |].
  intros Hz. split; [apply make_arg_int_overflow, Hz |].
  intros Hin. rewrite FuncCall_eq_spec.
  pose proof (vector_storage_logged not_TVMFuncCall args w (fun _ => eq_refl))
    as Hst.
  unfold FuncCall_spec, as_int. unfold_M.
  destruct (in_int (Z.of_nat (length args))).
  - destruct (encode_args args [] (vector_storage args w))
      as [[[[vs ts] temps] | e |] w1] eqn:E.
    + exfalso. exact (encode_args_overflow z args _ _ _ _ Hz Hin E).
    + eexists _, _. split; [reflexivity |]. split; [discriminate |].
      eapply logged_only_trans; [exact Hst |].
      eapply encode_args_logged, E.
    + eexists _, _. split; [reflexivity |]. split; [discriminate |].
      eapply logged_only_trans; [exact Hst |].
      eapply encode_args_logged, E.
  - eexists _, _. split; [reflexivity |]. split; [discriminate |].
    exact Hst.
Qed.

End Overflow.

(** * The model at work: concrete runs *)

Section Runs.
#[local] Existing Instance c_runtime_codes.
#[local] Existing Instance sample_runtime.
#[local] Existing Instance c_runtime_codes_wf.

(** C1 as stated fails: a string with a NUL character is encoded, and
    decoded up to that character only. *)
Lemma make_ret_make_arg_NUL_counterexample :
  let v := PyStr ("a" ++ String Ascii.zero "b") in
  non_handle_kind v = true /\
  exists value tcode temp_args' w1,
    make_arg v [] empty_world = (Ok (value, tcode, temp_args'), w1) /\
    make_ret value tcode w1 = (Ok (PyStr "a"), w1) /\
    ~ equal_value (PyStr "a") v.
Proof.
  split; [reflexivity |].
  eexists _, _, _, _. split; [reflexivity |]. split; [reflexivity |].
  intros H. inversion H.
Qed.

Lemma make_ret_make_arg_round_trip_witness :
  non_handle_kind (PyStr "hi") = true /\
  fits_int64 (PyStr "hi") = true /\
  NUL_free (PyStr "hi") = true /\
  exists value tcode temp_args' w1,
    make_arg (PyStr "hi") [] empty_world = (Ok (value, tcode, temp_args'), w1) /\
    exists v' w2, make_ret value tcode w1 = (Ok v', w2) /\
                  equal_value v' (PyStr "hi").
Proof.
  split; [reflexivity |]. split; [reflexivity |]. split; [reflexivity |].
  apply (make_ret_make_arg_round_trip (PyStr "hi") [] empty_world); reflexivity.
Defined.

(** C2 as stated fails: a non-bool integral argument that does not fit
    the int64 slot is given no type code at all. *)
Lemma make_arg_kInt_counterexample :
  isinstance (PyInt (2 ^ 63)) Integral = true /\
  isinstance (PyInt (2 ^ 63)) bool_cls = false /\
  (make_arg (PyInt (2 ^ 63)) [] empty_world).1
  = Raise (mk_exc OverflowError "Python int too large to convert to C long") /\
  ~ exists value temp_args' w',
      make_arg (PyInt (2 ^ 63)) [] empty_world
      = (Ok (value, kInt, temp_args'), w').
Proof.
  split; [reflexivity |]. split; [reflexivity |]. split; [reflexivity |].
  intros (value & temp_args' & w' & H). vm_compute in H. discriminate H.
Qed.

Lemma make_arg_bool_before_integral_witness :
  in_int64 5 = true /\
  make_arg (PyInt 5) [] empty_world = (Ok (V_int64 5, kInt, []), empty_world) /\
  make_arg (PyBool true) [] empty_world
  = (Ok (V_int64 1, kTVMArgBool, []), empty_world).
Proof.
  split; [reflexivity |].
  pose proof (make_arg_bool_before_integral true 5 (V_int64 1) [] empty_world)
    as [[_ [Hb _]] [Hi _]].
  split; [apply Hi; reflexivity | exact Hb].
Defined.

Lemma FuncCall_paths_witness :
  (length [PyInt 5; PyStr "hi"; PyBool true] <= 3)%nat /\
  FuncCall 101 [PyInt 5; PyStr "hi"; PyBool true] empty_world
  = FuncCall3 101 [PyInt 5; PyStr "hi"; PyBool true] 3 empty_world /\
  logged_only not_vector_resize empty_world
    (FuncCall 101 [PyInt 5; PyStr "hi"; PyBool true] empty_world).2 /\
  (4 <= length [PyInt 1; PyInt 2; PyInt 3; PyInt 4; PyInt 5])%nat /\
  in_int (Z.of_nat (length [PyInt 1; PyInt 2; PyInt 3; PyInt 4; PyInt 5])) = true /\
  FuncCall 100 [PyInt 1; PyInt 2; PyInt 3; PyInt 4; PyInt 5] empty_world
  = FuncCall_spec 100 [PyInt 1; PyInt 2; PyInt 3; PyInt 4; PyInt 5]
      (log (Ev_vector_resize 5) (log (Ev_vector_resize 5) empty_world)) /\
  exists evs,
    trace (FuncCall 100 [PyInt 1; PyInt 2; PyInt 3; PyInt 4; PyInt 5]
             empty_world).2
    = trace empty_world ++ Ev_vector_resize 5 :: Ev_vector_resize 5 :: evs /\
    Forall (fun ev => not_vector_resize ev = true) evs.
Proof.
  assert (H3 : (length [PyInt 5; PyStr "hi"; PyBool true] <= 3)%nat)
    by (simpl; lia).
  assert (H5 : (4 <= length [PyInt 1; PyInt 2; PyInt 3; PyInt 4; PyInt 5])%nat)
    by (simpl; lia).
  assert (Hint : in_int (Z.of_nat (length [PyInt 1; PyInt 2; PyInt 3; PyInt 4;
                                           PyInt 5])) = true)
    by reflexivity.
  destruct (proj1 (FuncCall_paths 101 [PyInt 5; PyStr "hi"; PyBool true] 3
                     empty_world) H3) as (Hsmall & _ & Hnone).
  destruct (proj2 (proj1 (proj2 (FuncCall_paths 100
                     [PyInt 1; PyInt 2; PyInt 3; PyInt 4; PyInt 5] 5
                     empty_world)) H5) Hint) as (Hlarge & Hstorage).
  split; [exact H3 |]. split; [exact Hsmall |]. split; [exact Hnone |].
  split; [exact H5 |]. split; [exact Hint |].
  split; [exact Hlarge | exact Hstorage].
Defined.







(** C8 as stated fails: on a mismatch the assertion fails with an empty
    message, which names neither the expected nor the returned code; and
    under python -O the mismatch does not abort at all. *)
Lemma ConstructorCall_mismatch_counterexample :
  (FuncCall 103 [] empty_world).1 = Ok (V_handle 4096, kTVMModuleHandle) /\
  kTVMModuleHandle <> kTVMObjectHandle /\
  (exists err,
    (ConstructorCall 103 kTVMObjectHandle [] empty_world).1 = Raise err /\
    exc_type err = AssertionError /\
    exc_msg err = "" /\
    mentions kTVMObjectHandle (exc_msg err) = false /\
    mentions kTVMModuleHandle (exc_msg err) = false) /\
  (@FuncCall c_runtime_codes optimized_runtime 103 [] empty_world).1
  = Ok (V_handle 4096, kTVMModuleHandle) /\
  (@ConstructorCall c_runtime_codes optimized_runtime 103 kTVMObjectHandle []
     empty_world).1 = Ok 4096.
Proof.
  split; [reflexivity |]. split; [discriminate |].
  split; [| split; reflexivity].
  exists (mk_exc AssertionError ""). repeat split.
Qed.

Lemma ConstructorCall_checks_type_code_witness :
  FuncCall 104 [] empty_world
  = (Ok (V_handle 4096, kTVMObjectHandle), log (Ev_TVMFuncCall 104 [] [] 0) empty_world) /\
  ConstructorCall 104 kTVMObjectHandle [] empty_world
  = (Ok 4096, log (Ev_TVMFuncCall 104 [] [] 0) empty_world) /\
  kTVMObjectHandle <> kTVMModuleHandle /\
  @assertions_enabled sample_runtime = true /\
  ConstructorCall 104 kTVMModuleHandle [] empty_world
  = (Raise (mk_exc AssertionError ""), log (Ev_TVMFuncCall 104 [] [] 0) empty_world) /\
  @assertions_enabled optimized_runtime = false /\
  @ConstructorCall c_runtime_codes optimized_runtime 104 kTVMModuleHandle []
     empty_world
  = (Ok 4096, log (Ev_TVMFuncCall 104 [] [] 0) empty_world).
Proof.
  assert (Hcall : FuncCall 104 [] empty_world
                  = (Ok (V_handle 4096, kTVMObjectHandle),
                     log (Ev_TVMFuncCall 104 [] [] 0) empty_world))
    by reflexivity.
  assert (Hne : kTVMObjectHandle <> kTVMModuleHandle) by discriminate.
  split; [exact Hcall |].
  split.
  - exact (proj1 (ConstructorCall_checks_type_code
                    104 kTVMObjectHandle [] _ _ _ _ Hcall) eq_refl 4096 eq_refl).
  - split; [exact Hne |]. split; [reflexivity |].
    split; [exact (proj1 (proj2 (ConstructorCall_checks_type_code
                                   104 kTVMModuleHandle [] _ _ _ _ Hcall))
                     Hne eq_refl) |].
    split; [reflexivity |].
    assert (Hcall' : @FuncCall c_runtime_codes optimized_runtime 104 [] empty_world
                     = (Ok (V_handle 4096, kTVMObjectHandle),
                        log (Ev_TVMFuncCall 104 [] [] 0) empty_world))
      by reflexivity.
    exact (proj2 (proj2 (ConstructorCall_checks_type_code (ext:=optimized_runtime)
                           104 kTVMModuleHandle [] _ _ _ _ Hcall'))
             Hne eq_refl 4096 eq_refl).
Defined.

Lemma wrap_release_balance_witness :
  (native_TVMFuncCreateFromCFunc 1).1 = 0 /\
  native_TVMFuncFree (native_TVMFuncCreateFromCFunc 1).2 = 0 /\
  exists wrapper w1 w2,
    convert_to_tvm_func (PyCallable 1) empty_world = (Ok wrapper, w1) /\
    PackedFuncBase_is_global wrapper = Some 0 /\
    PackedFuncBase_dealloc wrapper w1 = (Ok tt, w2) /\
    refcount w2 1 = refcount empty_world 1 /\
    trace w2 = trace empty_world
               ++ [Ev_Py_INCREF 1;
                   Ev_TVMFuncCreateFromCFunc Cb_tvm_callback 1
                     Fin_tvm_callback_finalize;
                   Ev_TVMFuncFree (native_TVMFuncCreateFromCFunc 1).2;
                   Ev_Py_DECREF 1].
Proof.
  split; [reflexivity |]. split; [reflexivity |].
  exact (proj2 (proj2 (proj2 (proj2
           (wrap_release_balance 1 1001 0 empty_world))))
           eq_refl eq_refl).
Defined.

Lemma make_arg_int64_range_witness :
  in_int64 (2 ^ 63) = false /\
  PyInt (2 ^ 63) ∈ [PyInt 1; PyInt (2 ^ 63)] /\
  in_int64 (-5) = true /\
  make_arg (PyInt (-5)) [] empty_world = (Ok (V_int64 (-5), kInt, []), empty_world) /\
  make_arg (PyInt (2 ^ 63)) [] empty_world
  = (Raise (mk_exc OverflowError "Python int too large to convert to C long"),
     empty_world) /\
  exists o w',
    FuncCall 100 [PyInt 1; PyInt (2 ^ 63)] empty_world = (o, w') /\
    (forall r, o <> Ok r) /\
    logged_only not_TVMFuncCall empty_world w'.
Proof.
  assert (Hbig : in_int64 (2 ^ 63) = false) by reflexivity.
  assert (Hin : PyInt (2 ^ 63) ∈ [PyInt 1; PyInt (2 ^ 63)])
    by (apply list_elem_of_further, list_elem_of_here).
  assert (Hsmall : in_int64 (-5) = true) by reflexivity.
  split; [exact Hbig |]. split; [exact Hin |]. split; [exact Hsmall |].
  split.
  - exact (proj1 (make_arg_int64_range (-5) true 100
                    [] [] empty_world) Hsmall).
  - pose proof (proj2 (proj2 (make_arg_int64_range
                    (2 ^ 63) true 100 [PyInt 1; PyInt (2 ^ 63)] []
                    empty_world)) Hbig) as [Hraise Hcall].
    split; [exact Hraise | exact (Hcall Hin)].
Defined.

End Runs.

(** * Further properties of the encoder and the decoder *)

Section EncoderDecoder.
Context {tc : TypeCodes} {wf : TypeCodesWF tc} {ext : Extern}.

(** X1. An object that wraps one raw handle (an object, a non-view array,
    a module, an opaque pointer, a function) is encoded without temporary
    storage and decodes, from the value and code produced, into the same
    object; a function wrapper comes back marked local whatever its
    [is_global] was. *)
Theorem make_ret_make_arg_handle (v : pyobj) (temp_args : list temp) (w : World) :
  handle_kind v = true ->
  exists value tcode,
    make_arg v temp_args w = (Ok (value, tcode, temp_args), w) /\
    make_ret value tcode w = (Ok (as_decoded v), w).
Proof.
  intros Hk. destruct v; try discriminate Hk.
  - eexists _, _. split; [reflexivity |]. unfold make_ret. code_eqb. reflexivity.
  - destruct c_is_view; [discriminate Hk |].
    exists (V_handle chandle), kTVMNDArrayHandle. split; [reflexivity |].
    unfold make_ret. code_eqb. reflexivity.
  - eexists _, _. split; [reflexivity |]. unfold make_ret. code_eqb. reflexivity.
  - eexists _, _. split; [reflexivity |]. unfold make_ret. code_eqb. reflexivity.
  - eexists _, _. split; [reflexivity |]. unfold make_ret. code_eqb. reflexivity.
Qed.

(** X2. A handle tagged Object, NDArray, OpaqueHandle, Module or
    PackedFunction decodes into an object that encodes back to the same
    handle under the same code, with nothing added to [temp_args] and the
    world unchanged. *)
Theorem make_arg_make_ret_handle (h tcode : Z) (temp_args : list temp) (w : World) :
  tcode ∈ round_trip_handle_codes ->
  exists o,
    make_ret (V_handle h) tcode w = (Ok o, w) /\
    make_arg o temp_args w = (Ok (V_handle h, tcode, temp_args), w).
Proof.
  unfold round_trip_handle_codes. rewrite !elem_of_cons, elem_of_nil.
  intros [-> | [-> | [-> | [-> | [-> | []]]]]];
    (eexists; split; [unfold make_ret; code_eqb; reflexivity | reflexivity]).
Qed.

(** X3. Decoding a POD value and encoding the result gives the tagged
    value back for Int (within int64), Float and Device; a value tagged
    Bool comes back with its payload normalised to 0 or 1; a value tagged
    Null comes back as the NULL handle whatever it held. *)
Theorem make_arg_make_ret_pod (z : Z) (f : float64) (d : DLDevice)
    (value : TVMValue) (temp_args : list temp) (w : World) :
  (in_int64 z = true ->
   exists o, make_ret (V_int64 z) kInt w = (Ok o, w) /\
             make_arg o temp_args w = (Ok (V_int64 z, kInt, temp_args), w)) /\
  (exists o, make_ret (V_float64 f) kFloat w = (Ok o, w) /\
             make_arg o temp_args w = (Ok (V_float64 f, kFloat, temp_args), w)) /\
  (exists o, make_ret (V_device d) kDLDevice w = (Ok o, w) /\
             make_arg o temp_args w = (Ok (V_device d, kDLDevice, temp_args), w)) /\
  (exists o, make_ret (V_int64 z) kTVMArgBool w = (Ok o, w) /\
             make_arg o temp_args w
             = (Ok (V_int64 (if z =? 0 then 0 else 1), kTVMArgBool, temp_args), w)) /\
  (exists o, make_ret value kTVMNullptr w = (Ok o, w) /\
             make_arg o temp_args w = (Ok (V_handle NULL, kTVMNullptr, temp_args), w)).
Proof.
  split; [| split; [| split; [| split]]].
  - intros Hz. eexists. split; [apply make_ret_int | apply make_arg_int, Hz].
  - eexists. split; [apply make_ret_float | reflexivity].
  - eexists. split; [apply make_ret_device |]. destruct d. reflexivity.
  - eexists. split; [apply make_ret_bool |].
    rewrite make_arg_bool. destruct (z =? 0); reflexivity.
  - eexists. split; [apply make_ret_null | reflexivity].
Qed.

(** X4. Whatever [make_arg] encodes (an object of a class registered in
    [_TVM_COMPATS], which brings its own code, apart) can be decoded where
    it was encoded: [make_ret] reads the union member that was written and
    finds the buffers in place.  Only the codes the decoder has no branch
    for, the tensor view and the reference slot, are left to the
    extension table. *)
Theorem encoded_argument_decodes (arg : pyobj) (temp_args temp_args' : list temp)
    (value : TVMValue) (tcode : Z) (w w1 : World) :
  isinstance arg _TVM_COMPATS = false ->
  make_arg arg temp_args w = (Ok (value, tcode, temp_args'), w1) ->
  (exists o w2, make_ret value tcode w1 = (Ok o, w2)) \/
  tcode = kTVMDLTensorHandle \/ tcode = kTVMObjectRefArg.
Proof.
  intros Hc H.
  destruct arg as [h | h v | h | h t | b | z | f | s | | [f |] | s | dt di
                  | l | l | it | it | i | i | h | h g | h | a | p | r];
    try discriminate Hc;
    unfold make_arg in H; simpl in H; unfold_M; simpl in H;
    try discriminate H.
  - inversion H; subst. left. unfold make_ret. code_eqb. eauto.
  - destruct v; inversion H; subst; [right; left; reflexivity |].
    left. unfold make_ret. code_eqb. eauto.
  - inversion H; subst. left. unfold make_ret. code_eqb. eauto.
  - inversion H; subst. left. rewrite make_ret_bool. eauto.
  - unfold as_int64 in H. unfold_M. destruct (in_int64 z); inversion H; subst.
    left. rewrite make_ret_int. eauto.
  - inversion H; subst. left. rewrite make_ret_float. eauto.
  - destruct (make_ret_encode_str s temp_args w) as (p & w' & Henc & Hdec).
    unfold encode_str, alloc in Henc. unfold_M. simpl in Henc.
    inversion Henc; subst. inversion H; subst. left. eauto.
  - inversion H; subst. left. rewrite make_ret_null. eauto.
  - inversion H; subst. left. rewrite make_ret_float. eauto.
  - destruct (make_ret_encode_str s temp_args w) as (p & w' & Henc & Hdec).
    unfold encode_str, alloc in Henc. unfold_M. simpl in Henc.
    inversion Henc; subst. inversion H; subst. left. eauto.
  - inversion H; subst. left. rewrite make_ret_device. eauto.
  - destruct (make_ret_bytes_after_alloc l w) as (w2 & Hdec).
    inversion H; subst. left. eauto.
  - destruct (make_ret_bytes_after_alloc l w) as (w2 & Hdec).
    inversion H; subst. left. eauto.
  - destruct (_FUNC_CONVERT_TO_OBJECT (PyList it)) as [[] | |];
      simpl in H; inversion H; subst.
    left. unfold make_ret. code_eqb. eauto.
  - destruct (_FUNC_CONVERT_TO_OBJECT (PyTuple it)) as [[] | |];
      simpl in H; inversion H; subst.
    left. unfold make_ret. code_eqb. eauto.
  - destruct (_FUNC_CONVERT_TO_OBJECT (PyDict i)) as [[] | |];
      simpl in H; inversion H; subst.
    left. unfold make_ret. code_eqb. eauto.
  - destruct (_FUNC_CONVERT_TO_OBJECT (ObjectGeneric_obj i)) as [[] | |];
      simpl in H; inversion H; subst.
    left. unfold make_ret. code_eqb. eauto.
  - inversion H; subst. left. unfold make_ret. code_eqb. eauto.
  - inversion H; subst. left. unfold make_ret. code_eqb. eauto.
  - inversion H; subst. left. unfold make_ret. code_eqb. eauto.
  - inversion H; subst. right. right. reflexivity.
  - destruct (convert_to_tvm_func (PyCallable p) w) as [[o | e |] w'] eqn:E;
      try discriminate H.
    destruct o; simpl in H; inversion H; subst.
    left. unfold make_ret. code_eqb. eauto.
Qed.

(** X5. [make_arg] only appends to [temp_args].  The buffer a string
    value points to holds the encoded text and is the entry appended; the
    descriptor a bytes value points to gives the length of the content and
    points to a copy of it, and both are appended, the copy first. *)
Theorem make_arg_keeps_buffers (arg : pyobj) (s : string) (content : list byte)
    (temp_args : list temp) (w : World) :
  (forall value tcode temp_args' w1,
     make_arg arg temp_args w = (Ok (value, tcode, temp_args'), w1) ->
     exists added, temp_args' = temp_args ++ added) /\
  (exists p w1,
     make_arg (PyStr s) temp_args w
     = (Ok (V_str p, kTVMStr, temp_args ++ [TempBuf p]), w1) /\
     heap w1 !! p = Some (CBytes (c_str s))) /\
  (exists buf arr w1,
     make_arg (PyBytes content) temp_args w
     = (Ok (V_handle arr, kTVMBytes, temp_args ++ [TempBuf buf; TempBuf arr]), w1) /\
     heap w1 !! arr = Some (CByteArrayDesc buf (Z.of_nat (length content))) /\
     heap w1 !! buf = Some (CBytes content)).
Proof.
  split; [| split].
  - intros value tcode temp_args' w1 H.
    destruct arg as [h | h v | h | h t | b | z | f | s0 | | [f |] | s0 | dt di
                    | l | l | it | it | i | i | h | h g | h | a | p | r];
      unfold make_arg in H; simpl in H; unfold_M; simpl in H;
      try discriminate H;
      try (inversion H; subst;
           first [ exists []; symmetry; apply app_nil_r
                 | eexists; reflexivity
                 | eexists; rewrite <- app_assoc; reflexivity ]).
    + unfold as_uint64, as_int in H. unfold_M.
      destruct (in_uint64 h); [| discriminate H]. simpl in H.
      destruct (in_int t); inversion H; subst.
      exists []. symmetry. apply app_nil_r.
    + unfold as_int64 in H. unfold_M. destruct (in_int64 z); inversion H; subst.
      exists []. symmetry. apply app_nil_r.
    + destruct (_FUNC_CONVERT_TO_OBJECT (PyList it)) as [[] | |];
        simpl in H; inversion H; subst. eexists. reflexivity.
    + destruct (_FUNC_CONVERT_TO_OBJECT (PyTuple it)) as [[] | |];
        simpl in H; inversion H; subst. eexists. reflexivity.
    + destruct (_FUNC_CONVERT_TO_OBJECT (PyDict i)) as [[] | |];
        simpl in H; inversion H; subst. eexists. reflexivity.
    + destruct (_FUNC_CONVERT_TO_OBJECT (ObjectGeneric_obj i)) as [[] | |];
        simpl in H; inversion H; subst. eexists. reflexivity.
    + destruct (convert_to_tvm_func (PyCallable p) w) as [[o | e |] w'] eqn:E;
        try discriminate H.
      destruct o; simpl in H; inversion H; subst. eexists. reflexivity.
  - eexists _, _. split; [reflexivity |]. simpl. apply lookup_insert_eq.
  - eexists _, _, _. split.
    + rewrite make_arg_bytes, <- app_assoc. reflexivity.
    + unfold bytes_world. simpl. split; [apply lookup_insert_eq |].
      rewrite lookup_insert_ne by lia. apply lookup_insert_eq.
Qed.

End EncoderDecoder.

Section DecoderEdges.
Context {tc : TypeCodes} {ext : Extern}.

Lemma not_decoded_code tcode :
  tcode ∉ decoded_codes ->
  forall c, c ∈ decoded_codes -> (tcode =? c) = false.
Proof. intros Hn c Hc. apply Z.eqb_neq. intros ->. contradiction. Qed.

(** X6. A type code that [make_ret] has no branch for is looked up in the
    table of registered decoders: with no decoder the value is rejected
    with the error that carries the code, and the world is untouched; with
    a decoder the result is the decoder applied to the raw handle. *)
Theorem make_ret_extension_dispatch (tcode h : Z) (value : TVMValue) (w : World) :
  tcode ∉ decoded_codes ->
  (_TVM_EXT_RET !! tcode = None ->
   make_ret value tcode w
   = (Raise (mk_exc ValueError ("Unhandled type code " +:+ pretty tcode)), w)) /\
  (forall decoder, _TVM_EXT_RET !! tcode = Some decoder ->
   make_ret (V_handle h) tcode w = (Ok (decoder h), w)).
Proof.
  intros Hn.
  assert (Hne : forall c, c ∈ decoded_codes -> (tcode =? c) = false)
    by (apply not_decoded_code, Hn).
  assert (Hunfold : forall v,
    make_ret v tcode w =
    match _TVM_EXT_RET !! tcode with
    | Some decoder => (h' ← defined (v_handle v); mret (decoder h')) w
    | None => (Raise (mk_exc ValueError ("Unhandled type code " +:+ pretty tcode)), w)
    end).
  { intros v. unfold make_ret.
    rewrite !Hne by (unfold decoded_codes; rewrite !elem_of_cons; tauto).
    destruct (_TVM_EXT_RET !! tcode); reflexivity. }
  split.
  - intros Hext. rewrite Hunfold, Hext. reflexivity.
  - intros decoder Hext. rewrite Hunfold, Hext. reflexivity.
Qed.

(** X7. [make_ret_bytes] returns the first [size] bytes of the buffer the
    descriptor points to, as many as the descriptor says and no more, and
    changes nothing but the heap. *)
Theorem make_ret_bytes_prefix (chandle data size : Z) (src : list byte) (w : World) :
  heap w !! chandle = Some (CByteArrayDesc data size) ->
  heap w !! data = Some (CBytes src) ->
  0 <= size <= Z.of_nat (length src) ->
  exists w',
    make_ret_bytes chandle w = (Ok (PyByteArray (take (Z.to_nat size) src)), w') /\
    Z.of_nat (length (take (Z.to_nat size) src)) = size /\
    heap_only w w'.
Proof.
  intros Hdesc Hdata Hsize.
  assert (Hb : (0 <=? size) && (size <=? Z.of_nat (length src)) = true).
  { apply andb_true_iff. split; apply Z.leb_le; lia. }
  assert (Hrun : exists w',
    make_ret_bytes chandle w = (Ok (PyByteArray (take (Z.to_nat size) src)), w')).
  { unfold make_ret_bytes, load_bytes, load, alloc. unfold_M. simpl.
    rewrite Hdesc. simpl. rewrite Hdata. simpl. rewrite Hb. simpl.
    eexists. reflexivity. }
  destruct Hrun as [w' Hrun]. exists w'.
  split; [exact Hrun |]. split.
  - rewrite length_take. lia.
  - eapply make_ret_bytes_heap_only, Hrun.
Qed.

End DecoderEdges.

(** * Further properties of the invokers, the trampoline and the wrappers *)

Section InvokerEdges.
Context {tc : TypeCodes} {ext : Extern}.


End InvokerEdges.

Section TrampolineEdges.
Context {tc : TypeCodes} {ext : Extern}.

Lemma callback_arg_no_call value tcode :
  preserves (logged_only not_Ev_call) (callback_arg value tcode).
Proof.
  intros w o w' H. apply callback_arg_trace in H.
  eexists. split; [exact H |].
  destruct (needs_arg_to_return tcode); repeat constructor.
Qed.

Lemma callback_args_no_call idx args type_codes : forall pyargs,
  preserves (logged_only not_Ev_call) (callback_args idx args type_codes pyargs).
Proof.
  induction idx as [| i idx IH]; intros pyargs; simpl.
  - apply preserves_ret, logged_only_refl.
  - repeat first [apply callback_arg_no_call | apply IH
                 | preserves_step (logged_only_refl not_Ev_call)
                                  (logged_only_trans not_Ev_call)].
Qed.

Lemma callback_args_length idx args type_codes : forall pyargs w r w',
  callback_args idx args type_codes pyargs w = (Ok r, w') ->
  length r = (length pyargs + length idx)%nat.
Proof.
  induction idx as [| i idx IH]; intros pyargs w r w'; simpl.
  - intros H. inversion H. lia.
  - unfold_M.
    destruct (args !! i) as [value |]; [| discriminate].
    destruct (type_codes !! i) as [tcode |]; [| discriminate]. simpl.
    destruct (callback_arg value tcode w) as [[o | e |] w1]; try discriminate.
    intros H. apply IH in H. rewrite H, length_app. simpl. lia.
Qed.



End TrampolineEdges.

Section CallOnce.
Context {tc : TypeCodes} {ext : Extern}.

Lemma encoding_event_no_call ev :
  encoding_event ev = true -> not_Ev_call ev = true.
Proof. destruct ev; (reflexivity || discriminate). Qed.

(** X11. When the incoming arguments decode, the callable is called
    exactly once, with as many arguments as [num_args] says, whatever
    happens afterwards: the call is the first event after the decoding
    and no other call of a Python callable is logged. *)
Theorem tvm_callback_calls_once (args : list TVMValue) (type_codes : list Z)
    (num_args ret fhandle : Z) (pyargs : list pyobj) (o : outcome Z)
    (w w1 w' : World) :
  callback_args (seq 0 (Z.to_nat num_args)) args type_codes [] w
  = (Ok pyargs, w1) ->
  tvm_callback args type_codes num_args ret fhandle w = (o, w') ->
  length pyargs = Z.to_nat num_args /\
  logged_only not_Ev_call w w1 /\
  exists evs,
    trace w' = trace w1 ++ Ev_call fhandle pyargs :: evs /\
    Forall (fun ev => not_Ev_call ev = true) evs.
Proof.
  intros Hargs Hrun. split; [| split].
  - apply callback_args_length in Hargs. rewrite length_seq in Hargs. exact Hargs.
  - eapply callback_args_no_call, Hargs.
  - revert Hrun. unfold tvm_callback. unfold_M. rewrite Hargs. simpl.
    destruct (call_pyfunc fhandle pyargs) as [rv | err |].
    + destruct (is_None rv); simpl.
      { intros H. inversion H; subst. exists []. split; [reflexivity | constructor]. }
      destruct (isinstance rv tuple_cls).
      { intros H. inversion H; subst. exists []. split; [reflexivity | constructor]. }
      destruct (make_arg rv [] (log (Ev_call fhandle pyargs) w1))
        as [[[[v t] temps] | e |] w2] eqn:E;
        pose proof (make_arg_logged_gen not_Ev_call rv []
                      encoding_event_no_call _ _ _ E)
          as (evs & Htr & Hev); simpl in Htr.
      * unfold TVMCFuncSetReturn, CHECK_CALL. unfold_M. simpl.
        destruct (native_TVMCFuncSetReturn ret v t 1 =? 0) eqn:Es; simpl;
          rewrite ?Es; simpl; intros H; inversion H; subst; simpl;
          exists (evs ++ [Ev_TVMCFuncSetReturn ret v t 1]);
          (split; [rewrite Htr, <- !app_assoc; reflexivity
                  | apply Forall_app; split; [exact Hev | repeat constructor]]).
      * intros H. inversion H; subst. exists evs.
        split; [rewrite Htr, <- app_assoc; reflexivity | exact Hev].
      * intros H. inversion H; subst. exists evs.
        split; [rewrite Htr, <- app_assoc; reflexivity | exact Hev].
    + destruct (is_Exception err).
      * unfold TVMAPISetLastPythonError. unfold_M. simpl.
        intros H. inversion H; subst. simpl.
        exists [Ev_TVMAPISetLastPythonError err].
        split; [rewrite <- app_assoc; reflexivity | repeat constructor].
      * intros H. inversion H; subst. exists [].
        split; [reflexivity | constructor].
    + intros H. inversion H; subst. exists [].
      split; [reflexivity | constructor].
Qed.

End CallOnce.

Section Translation.
Context {tc : TypeCodes} {wf : TypeCodesWF tc} {ext : Extern}.










End Translation.

Section LifetimeEdges.
Context {tc : TypeCodes} {ext : Extern}.

(** X12. When the creation primitive reports a failure,
    [convert_to_tvm_func] raises the native error; the reference it took on
    the callable before the call is not given back, and no closure is
    registered. *)
Theorem convert_to_tvm_func_failure (p : Z) (w : World) :
  (native_TVMFuncCreateFromCFunc p).1 <> 0 ->
  exists w1,
    convert_to_tvm_func (PyCallable p) w
    = (Raise (mk_exc TVMError native_last_error), w1) /\
    refcount w1 p = refcount w p + 1 /\
    native_funcs w1 = native_funcs w /\
    trace w1 = trace w ++ [Ev_Py_INCREF p;
                           Ev_TVMFuncCreateFromCFunc Cb_tvm_callback p
                             Fin_tvm_callback_finalize].
Proof.
  intros Hst.
  unfold convert_to_tvm_func, Py_INCREF, TVMFuncCreateFromCFunc, CHECK_CALL.
  unfold_M. simpl.
  destruct (native_TVMFuncCreateFromCFunc p) as [status chandle]. simpl in *.
  apply Z.eqb_neq in Hst. rewrite Hst. simpl. rewrite ?Hst. simpl.
  eexists. split; [reflexivity |]. simpl.
  split; [unfold refcount at 1; simpl; rewrite lookup_insert_eq; reflexivity |].
  split; [reflexivity |]. rewrite <- app_assoc. reflexivity.
Qed.

Lemma dealloc_after_convert p w w1 :
  (native_TVMFuncCreateFromCFunc p).1 = 0 ->
  native_TVMFuncFree (native_TVMFuncCreateFromCFunc p).2 = 0 ->
  convert_to_tvm_func (PyCallable p) w
  = (Ok (PackedFunc_obj (native_TVMFuncCreateFromCFunc p).2 0), w1) ->
  exists w2,
    PackedFuncBase_dealloc
      (PackedFunc_obj (native_TVMFuncCreateFromCFunc p).2 0) w1 = (Ok tt, w2) /\
    refcount w2 p = refcount w p /\
    native_funcs w2 = delete (native_TVMFuncCreateFromCFunc p).2 (native_funcs w1).
Proof.
  intros Hcreate Hfree Hrun.
  destruct (convert_to_tvm_func_run p w) as (o & w1' & Hrun' & Htr & Hrc & Hok & _).
  rewrite Hrun in Hrun'. inversion Hrun'; subst o w1'.
  destruct (Hok Hcreate) as [_ Hnf].
  assert (Hl : native_funcs w1 !! (native_TVMFuncCreateFromCFunc p).2
               = Some (mk_closure Cb_tvm_callback p Fin_tvm_callback_finalize))
    by (rewrite Hnf; apply lookup_insert_eq).
  unfold PackedFuncBase_dealloc, TVMFuncFree, CHECK_CALL. unfold_M. simpl.
  rewrite Hfree. simpl. rewrite Hl. simpl.
  rewrite ?Hfree. simpl.
  eexists. split; [reflexivity |]. simpl. split; [| reflexivity].
  unfold refcount. simpl. rewrite lookup_insert_eq. simpl.
  rewrite Hrc, lookup_insert_eq. simpl. unfold refcount. lia.
Qed.

(** X13. Encoding a Python callable wraps it: the value is the handle of a
    new native function, the code is PackedFunction, the wrapper is the
    one entry appended to [temp_args], and the callable's count is one
    higher.  Deallocating that wrapper frees the native function, whose
    finalizer brings the count back. *)
Theorem make_arg_callable_lifetime (p : Z) (temp_args : list temp) (w : World) :
  (native_TVMFuncCreateFromCFunc p).1 = 0 ->
  native_TVMFuncFree (native_TVMFuncCreateFromCFunc p).2 = 0 ->
  let chandle := (native_TVMFuncCreateFromCFunc p).2 in
  let wrapper := PackedFunc_obj chandle 0 in
  exists w1 w2,
    make_arg (PyCallable p) temp_args w
    = (Ok (V_handle chandle, kTVMPackedFuncHandle, temp_args ++ [TempObj wrapper]),
       w1) /\
    refcount w1 p = refcount w p + 1 /\
    native_funcs w1 !! chandle
    = Some (mk_closure Cb_tvm_callback p Fin_tvm_callback_finalize) /\
    PackedFuncBase_dealloc wrapper w1 = (Ok tt, w2) /\
    refcount w2 p = refcount w p /\
    native_funcs w2 !! chandle = None.
Proof.
  intros Hcreate Hfree chandle wrapper.
  destruct (convert_to_tvm_func_run p w) as (o & w1 & Hrun & Htr & Hrc & Hok & _).
  destruct (Hok Hcreate) as [-> Hnf].
  destruct (dealloc_after_convert p w w1 Hcreate Hfree Hrun)
    as (w2 & Hd & Hrc2 & Hnf2).
  exists w1, w2. split; [| split; [| split; [| split; [| split]]]].
  - unfold make_arg. simpl. unfold_M. rewrite Hrun. reflexivity.
  - eapply refcount_insert, Hrc.
  - rewrite Hnf. apply lookup_insert_eq.
  - exact Hd.
  - exact Hrc2.
  - rewrite Hnf2. apply lookup_delete_eq.
Qed.

End LifetimeEdges.

Section GlobalLookup.
Context {tc : TypeCodes} {ext : Extern}.
Variable registry : list byte -> Z * Z.

(** X14. A function found by [_get_global_func] is wrapped as global:
    deallocating the wrapper calls nothing, so the registry's handle is
    never freed by the caller.  A missing function is None when
    [allow_missing] is set and a ValueError naming the function when it is
    not; a failed lookup raises the native error.  The lookup changes
    nothing in the world. *)
Theorem get_global_func_never_freed (name : string) (allow_missing : bool)
    (w : World) :
  ((registry (c_str name)).1 = 0 -> (registry (c_str name)).2 <> NULL ->
   _get_global_func registry name allow_missing w
   = (Ok (PackedFunc_obj (registry (c_str name)).2 1), w) /\
   PackedFuncBase_dealloc (PackedFunc_obj (registry (c_str name)).2 1) w
   = (Ok tt, w)) /\
  ((registry (c_str name)).1 = 0 -> (registry (c_str name)).2 = NULL ->
   _get_global_func registry name allow_missing w
   = (if allow_missing then Ok PyNone
      else Raise (mk_exc ValueError ("Cannot find global function " +:+ name)),
      w)) /\
  ((registry (c_str name)).1 <> 0 ->
   _get_global_func registry name allow_missing w
   = (Raise (mk_exc TVMError native_last_error), w)).
Proof.
  unfold _get_global_func, CHECK_CALL.
  destruct (registry (c_str name)) as [status chandle]. simpl.
  split; [| split].
  - intros -> Hne. unfold_M. simpl.
    rewrite (proj2 (Z.eqb_neq _ _) Hne). simpl. split; reflexivity.
  - intros -> ->. unfold_M. simpl. destruct allow_missing; reflexivity.
  - intros Hst. unfold_M. rewrite (proj2 (Z.eqb_neq _ _) Hst). reflexivity.
Qed.

End GlobalLookup.

Lemma in_width_spec bits z :
  in_width bits z = true <-> - 2 ^ (bits - 1) <= z <= 2 ^ (bits - 1) - 1.
Proof. unfold in_width. rewrite andb_true_iff, !Z.leb_le. tauto. Qed.

(** A value of the width is not changed by wrapping. *)
Lemma wrap_in_width bits z :
  0 < bits -> in_width bits z = true -> wrap bits z = z.
Proof.
  intros Hbits Hz. apply in_width_spec in Hz. unfold wrap.
  assert (Hpow : 2 ^ bits = 2 * 2 ^ (bits - 1)).
  { replace bits with (Z.succ (bits - 1)) at 1 by lia.
    apply Z.pow_succ_r. lia. }
  rewrite Z.mod_small by lia. lia.
Qed.

(** X15. At operands of one width, with a positive step and with
    [end - start], [end - start + step] and [end - start + step - 1]
    within the width, [arange_num_elem] is a value of the width that
    counts the points [start + k * step], [k >= 0], that lie below [end]:
    an index is below the count exactly when its point is below [end].
    The count is not clamped: it is negative when [end] lies a step or
    more below [start]. *)
Theorem arange_num_elem_counts (bits start end_ step k : Z) :
  0 < bits -> 0 < step ->
  in_width bits start = true -> in_width bits end_ = true ->
  in_width bits step = true ->
  in_width bits (end_ - start) = true ->
  in_width bits (end_ - start + step) = true ->
  in_width bits (end_ - start + step - 1) = true ->
  exists n,
    arange_num_elem bits start end_ step = Some n /\
    in_width bits n = true /\
    (0 <= k -> k < n <-> start + k * step < end_) /\
    (end_ <= start - step -> n < 0).
Proof.
  intros Hbits Hstep _ _ _ Hdiff Hsum Hnum.
  exists ((end_ - start + step - 1) `div` step).
  pose proof (Z.div_mod (end_ - start + step - 1) step ltac:(lia)) as Hdm.
  pose proof (Z.mod_pos_bound (end_ - start + step - 1) step Hstep) as Hmod.
  assert (Hq : in_width bits ((end_ - start + step - 1) `div` step) = true).
  { apply in_width_spec. apply in_width_spec in Hnum. split; nia. }
  split; [| split; [exact Hq | split]].
  - unfold arange_num_elem.
    rewrite (wrap_in_width bits (end_ - start)) by assumption.
    rewrite (wrap_in_width bits (end_ - start + step)) by assumption.
    rewrite (wrap_in_width bits (end_ - start + step - 1)) by assumption.
    rewrite (proj2 (Z.eqb_neq step 0)) by lia.
    rewrite wrap_in_width by assumption. reflexivity.
  - intros Hk. split; intros H; nia.
  - intros H. nia.
Qed.

(** * The further properties at work *)

Section MoreRuns.
#[local] Existing Instance c_runtime_codes.
#[local] Existing Instance sample_runtime.
#[local] Existing Instance c_runtime_codes_wf.

Lemma make_ret_make_arg_handle_witness :
  handle_kind (PackedFunc_obj 100 1) = true /\
  exists value tcode,
    make_arg (PackedFunc_obj 100 1) [] empty_world
    = (Ok (value, tcode, []), empty_world) /\
    make_ret value tcode empty_world = (Ok (PackedFunc_obj 100 0), empty_world).
Proof.
  split; [reflexivity |].
  exact (make_ret_make_arg_handle (PackedFunc_obj 100 1) [] empty_world eq_refl).
Defined.

Lemma make_arg_make_ret_handle_witness :
  kTVMModuleHandle ∈ round_trip_handle_codes /\
  exists o,
    make_ret (V_handle 4096) kTVMModuleHandle empty_world = (Ok o, empty_world) /\
    make_arg o [] empty_world
    = (Ok (V_handle 4096, kTVMModuleHandle, []), empty_world).
Proof.
  assert (Hin : kTVMModuleHandle ∈ round_trip_handle_codes)
    by (apply (bool_decide_unpack _); vm_compute; reflexivity).
  split; [exact Hin |].
  exact (make_arg_make_ret_handle 4096 kTVMModuleHandle [] empty_world Hin).
Defined.

Lemma make_arg_make_ret_pod_witness :
  in_int64 7 = true /\
  exists o, make_ret (V_int64 7) kInt empty_world = (Ok o, empty_world) /\
            make_arg o [] empty_world = (Ok (V_int64 7, kInt, []), empty_world).
Proof.
  split; [reflexivity |].
  exact (proj1 (make_arg_make_ret_pod 7 0 (mk_device 1 0) (V_int64 7) []
                  empty_world) eq_refl).
Defined.

Lemma encoded_argument_decodes_witness :
  isinstance (PyBytes ["a"%byte]) _TVM_COMPATS = false /\
  make_arg (PyBytes ["a"%byte]) [] empty_world
  = (Ok (V_handle 2, kTVMBytes, [TempBuf 1; TempBuf 2]),
     bytes_world ["a"%byte] empty_world) /\
  ((exists o w2, make_ret (V_handle 2) kTVMBytes
                   (bytes_world ["a"%byte] empty_world) = (Ok o, w2)) \/
   kTVMBytes = kTVMDLTensorHandle \/ kTVMBytes = kTVMObjectRefArg).
Proof.
  split; [reflexivity |]. split; [reflexivity |].
  exact (encoded_argument_decodes (PyBytes ["a"%byte]) [] _ _ _ empty_world _
           eq_refl eq_refl).
Defined.

Lemma make_arg_keeps_buffers_witness :
  make_arg (PyStr "hi") [TempBuf 9] empty_world
  = (Ok (V_str 1, kTVMStr, [TempBuf 9; TempBuf 1]),
     set_heap (<[1 := CBytes (c_str "hi")]> ∅) 2%positive empty_world) /\
  exists added, [TempBuf 9; TempBuf 1] = [TempBuf 9] ++ added.
Proof.
  split; [reflexivity |].
  exact (proj1 (make_arg_keeps_buffers (PyStr "hi") "hi" [] [TempBuf 9]
                  empty_world) _ _ _ _ eq_refl).
Defined.

Lemma make_ret_extension_dispatch_witness :
  (99 ∉ decoded_codes) /\
  _TVM_EXT_RET !! 99 = None /\
  make_ret (V_handle 4096) 99 empty_world
  = (Raise (mk_exc ValueError "Unhandled type code 99"), empty_world).
Proof.
  assert (Hn : 99 ∉ decoded_codes)
    by (apply (bool_decide_unpack _); vm_compute; reflexivity).
  split; [exact Hn |]. split; [reflexivity |].
  exact (proj1 (make_ret_extension_dispatch 99 4096 (V_handle 4096) empty_world Hn)
           eq_refl).
Defined.

Lemma make_ret_bytes_prefix_witness :
  heap (bytes_world ["a"%byte; "b"%byte] empty_world) !! 2
  = Some (CByteArrayDesc 1 2) /\
  heap (bytes_world ["a"%byte; "b"%byte] empty_world) !! 1
  = Some (CBytes ["a"%byte; "b"%byte]) /\
  (0 <= 2 <= Z.of_nat (length ["a"%byte; "b"%byte])) /\
  exists w',
    make_ret_bytes 2 (bytes_world ["a"%byte; "b"%byte] empty_world)
    = (Ok (PyByteArray (take (Z.to_nat 2) ["a"%byte; "b"%byte])), w') /\
    Z.of_nat (length (take (Z.to_nat 2) ["a"%byte; "b"%byte])) = 2 /\
    heap_only (bytes_world ["a"%byte; "b"%byte] empty_world) w'.
Proof.
  assert (Hb : 0 <= 2 <= Z.of_nat (length ["a"%byte; "b"%byte]))
    by (simpl; lia).
  split; [reflexivity |]. split; [reflexivity |]. split; [exact Hb |].
  exact (make_ret_bytes_prefix 2 1 2 ["a"%byte; "b"%byte]
           (bytes_world ["a"%byte; "b"%byte] empty_world) eq_refl eq_refl Hb).
Defined.




Lemma tvm_callback_calls_once_witness :
  callback_args (seq 0 (Z.to_nat 1)) [V_int64 3] [kInt] [] empty_world
  = (Ok [PyInt 3], empty_world) /\
  length [PyInt 3] = Z.to_nat 1 /\
  exists evs,
    trace (tvm_callback [V_int64 3] [kInt] 1 7 1 empty_world).2
    = trace empty_world ++ Ev_call 1 [PyInt 3] :: evs /\
    Forall (fun ev => not_Ev_call ev = true) evs.
Proof.
  split; [reflexivity |].
  pose proof (tvm_callback_calls_once [V_int64 3] [kInt] 1 7 1 [PyInt 3]
                (tvm_callback [V_int64 3] [kInt] 1 7 1 empty_world).1
                empty_world empty_world
                (tvm_callback [V_int64 3] [kInt] 1 7 1 empty_world).2
                eq_refl eq_refl) as [Hlen [_ Hev]].
  split; [exact Hlen | exact Hev].
Defined.

Lemma convert_to_tvm_func_failure_witness :
  (@native_TVMFuncCreateFromCFunc failing_runtime 1).1 <> 0 /\
  exists w1,
    @convert_to_tvm_func failing_runtime (PyCallable 1) empty_world
    = (Raise (mk_exc TVMError "cannot create function"), w1) /\
    refcount w1 1 = refcount empty_world 1 + 1.
Proof.
  assert (Hst : (@native_TVMFuncCreateFromCFunc failing_runtime 1).1 <> 0)
    by discriminate.
  split; [exact Hst |].
  destruct (@convert_to_tvm_func_failure failing_runtime 1 empty_world Hst)
    as (w1 & Hrun & Hrc & _).
  exists w1. split; [exact Hrun | exact Hrc].
Defined.

Lemma make_arg_callable_lifetime_witness :
  (native_TVMFuncCreateFromCFunc 1).1 = 0 /\
  native_TVMFuncFree (native_TVMFuncCreateFromCFunc 1).2 = 0 /\
  exists w1 w2,
    make_arg (PyCallable 1) [] empty_world
    = (Ok (V_handle 1001, kTVMPackedFuncHandle, [TempObj (PackedFunc_obj 1001 0)]),
       w1) /\
    refcount w1 1 = refcount empty_world 1 + 1 /\
    PackedFuncBase_dealloc (PackedFunc_obj 1001 0) w1 = (Ok tt, w2) /\
    refcount w2 1 = refcount empty_world 1.
Proof.
  split; [reflexivity |]. split; [reflexivity |].
  destruct (make_arg_callable_lifetime (tc:=c_runtime_codes)
              (ext:=sample_runtime) 1 [] empty_world eq_refl eq_refl)
    as (w1 & w2 & Henc & Hrc & _ & Hd & Hrc2 & _).
  exists w1, w2. auto.
Defined.

Lemma get_global_func_never_freed_witness :
  (sample_registry (c_str "runtime.known")).1 = 0 /\
  (sample_registry (c_str "runtime.known")).2 <> NULL /\
  _get_global_func sample_registry "runtime.known" false empty_world
  = (Ok (PackedFunc_obj 100 1), empty_world) /\
  PackedFuncBase_dealloc (PackedFunc_obj 100 1) empty_world = (Ok tt, empty_world) /\
  (sample_registry (c_str "runtime.none")).2 = NULL /\
  _get_global_func sample_registry "runtime.none" false empty_world
  = (Raise (mk_exc ValueError "Cannot find global function runtime.none"),
     empty_world).
Proof.
  assert (Hne : (sample_registry (c_str "runtime.known")).2 <> NULL)
    by discriminate.
  split; [reflexivity |]. split; [exact Hne |].
  pose proof (proj1 (get_global_func_never_freed sample_registry
                       "runtime.known" false empty_world) eq_refl Hne)
    as [Hfound Hdealloc].
  split; [exact Hfound |]. split; [exact Hdealloc |].
  split; [reflexivity |].
  exact (proj1 (proj2 (get_global_func_never_freed sample_registry
                         "runtime.none" false empty_world)) eq_refl eq_refl).
Defined.

Lemma arange_num_elem_counts_witness :
  0 < 64 /\ 0 < 3 /\
  in_width 64 0 = true /\ in_width 64 10 = true /\ in_width 64 3 = true /\
  in_width 64 (10 - 0) = true /\ in_width 64 (10 - 0 + 3) = true /\
  in_width 64 (10 - 0 + 3 - 1) = true /\
  arange_num_elem 64 0 10 3 = Some 4 /\
  exists n,
    arange_num_elem 64 0 10 3 = Some n /\
    in_width 64 n = true /\
    (0 <= 3 -> 3 < n <-> 0 + 3 * 3 < 10) /\
    (10 <= 0 - 3 -> n < 0).
Proof.
  assert (Hb : 0 < 64) by lia. assert (Hs : 0 < 3) by lia.
  split; [exact Hb |]. split; [exact Hs |].
  do 6 (split; [reflexivity |]).
  split; [reflexivity |].
  exact (arange_num_elem_counts 64 0 10 3 3 Hb Hs eq_refl eq_refl eq_refl
           eq_refl eq_refl eq_refl).
Defined.


End MoreRuns.
